(** * Multi-provider web search: provider selection, failover and adapters

    A shallow embedding of the search front end
    ([selectSearchProvider] and [search]) and of the two adapters whose
    code is part of the repository ([braveSearch], [duckduckgoSearch]),
    followed by the properties the specification states about them.

    Conventions of the embedding:
    - JavaScript numbers that the code only uses as counters, timestamps
      and sizes are integers of [Z];
    - a value that may be [undefined] is an [option];
    - [process.env] is a finite map from names to strings;
    - code that may throw runs in a small state-and-exception monad
      ([Eff]); the three module variables of the front end, the
      logger's output and the list of adapter invocations are its state;
    - an adapter's run records the requests it sends and the waits
      between them; what the adapters themselves log is left out. *)

From Stdlib Require Import ZArith Lia.
From stdpp Require Import gmap strings list.

Local Open Scope string_scope.
Local Open Scope list_scope.
Local Open Scope Z_scope.

(** ** JavaScript helpers *)

Module JS.

(** Truthiness of a possibly absent string: [undefined] and [""] are falsy. *)
Definition truthy (v : option string) : bool :=
  match v with
  | Some (String _ _) => true
  | _ => false
  end.

(** [a || b] on possibly absent strings. *)
Definition or (a b : option string) : option string :=
  if truthy a then a else b.

(** [s.startsWith(p)]. *)
Fixpoint startsWith (p s : string) : bool :=
  match p, s with
  | EmptyString, _ => true
  | String a p', String b s' => if Ascii.eqb a b then startsWith p' s' else false
  | String _ _, EmptyString => false
  end.

(** [s.includes(needle)]. *)
Fixpoint includes (needle s : string) : bool :=
  startsWith needle s ||
  match s with
  | EmptyString => false
  | String _ s' => includes needle s'
  end.

(** [s.split(sep)] for a non-empty separator: the pieces between the
    successive, non-overlapping occurrences of [sep], scanning from the
    left.  [skip] counts the characters of a separator still to be
    dropped and [cur] is the piece being collected. *)
Fixpoint split_from (sep : string) (skip : nat) (cur : string) (s : string)
  : list string :=
  match s with
  | EmptyString => [cur]
  | String c s' =>
      match skip with
      | S k => split_from sep k cur s'
      | O =>
          if startsWith sep s
          then cur :: split_from sep (Nat.pred (String.length sep)) "" s'
          else split_from sep O (cur +:+ String c "") s'
      end
  end.

Definition split (sep s : string) : list string := split_from sep O "" s.

(** [s.slice(k)] for a natural [k]. *)
Fixpoint skip_chars (k : nat) (s : string) : string :=
  match k, s with
  | S k', String _ s' => skip_chars k' s'
  | _, _ => s
  end.

(** The text before and the text after the first occurrence of [sep]
    in [s], when there is one. *)
Fixpoint cut (sep s : string) : option (string * string) :=
  if startsWith sep s then Some ("", skip_chars (String.length sep) s)
  else
    match s with
    | EmptyString => None
    | String c s' =>
        match cut sep s' with
        | Some (before, after) => Some (String c before, after)
        | None => None
        end
    end.

(** [arr.slice(0, end)] for an integer [end]: a negative [end] counts
    from the end of the array. *)
Definition slice0 {A} (l : list A) (end_ : Z) : list A :=
  if end_ <? 0
  then take (Z.to_nat (Z.max 0 (Z.of_nat (length l) + end_))) l
  else take (Z.to_nat end_) l.

End JS.

(** ** Shared data *)

(** [SearchResult] of [lib/entities]: the constructor stores its three
    arguments as they come, so a field holds [undefined] when the
    backend's answer lacks it. *)
Record SearchResult := mkSearchResult {
  url : option string;
  title : option string;
  description : option string
}.

(** A thrown value, as far as the code looks at it: [error.message] and
    [error.response?.status]. *)
Record JsError := mkError {
  message : option string;
  response_status : option Z
}.

(** [new Error(msg)]. *)
Definition new_Error (msg : string) : JsError :=
  {| message := Some msg; response_status := None |}.

(** How an asynchronous call settles. *)
Inductive Completion (A : Type) : Type :=
| Normal (a : A)
| Thrown (e : JsError).
Arguments Normal {A} a.
Arguments Thrown {A} e.

(** Text of [`${m}`] for a possibly absent message. *)
Definition message_text (m : option string) : string :=
  match m with
  | Some s => s
  | None => "undefined"
  end.

(** What an adapter does on its way: it sends a request, or waits. *)
Inductive Event : Type :=
| request_sent
| waited_for (ms : Z).

(** The outcome of one adapter invocation together with what it did on
    the way, in order. *)
Record Run := mkRun {
  outcome : Completion (list SearchResult);
  events : list Event
}.

(** The number of requests sent during a run. *)
Definition requests (r : Run) : nat :=
  length (List.filter (fun ev => match ev with
                                 | request_sent => true
                                 | waited_for _ => false
                                 end) (events r)).

(** Constants of both retry loops. *)
Definition maxRetries : Z := 3.
Definition baseRetryDelay : Z := 1000.

(** [error.response?.status === 429 || error.response?.status === 503] *)
Definition rate_limited_status (error : JsError) : bool :=
  match response_status error with
  | Some st => (st =? 429) || (st =? 503)
  | None => false
  end.

(** Vocabulary of the statements about the retry loops: a backend
    answer that is an HTTP 429 or 503, *)
Definition rate_limited_answer {D} (settled : Completion D) : bool :=
  match settled with
  | Thrown error => rate_limited_status error
  | Normal _ => false
  end.

(** the error an adapter throws in place of the one it caught, *)
Definition wrap_error (prefix : string) (c : Completion (list SearchResult))
  : Completion (list SearchResult) :=
  match c with
  | Normal found => Normal found
  | Thrown error => Thrown (new_Error (prefix +:+ message_text (message error)))
  end.

(** the events of [n] successive retried attempts, the first of them
    made with the counter at [retryCount], *)
Definition retries (retryCount : Z) (n : nat) : list Event :=
  flat_map (fun k => [request_sent;
                      waited_for (baseRetryDelay * 2 ^ (retryCount + Z.of_nat k))])
           (seq 0 n).

(** and the events of a run that uses up all its retries. *)
Definition schedule : list Event :=
  [request_sent; waited_for 1000; request_sent; waited_for 2000;
   request_sent; waited_for 4000; request_sent].

(** ** bravesearch.ts *)

Module Brave.

Record Item := mkItem {
  item_url : option string;
  item_title : option string;
  item_description : option string
}.

(** [response.data]: [web] and [web.results] may both be missing. *)
Record Web := mkWeb { results : option (list Item) }.
Record Data := mkData { web : option Web }.

Record Options := mkOptions {
  num_results : option Z;
  lang : option string;
  country : option string;
  timeout : option Z
}.

(** The request handed to axios. *)
Record Request := mkRequest {
  token : string;
  q : string;
  count : Z;
  req_country : string;
  ui_lang : string;
  req_timeout : Z
}.

(** [response.data.web?.results], when it has a non-zero length. *)
Definition web_results (data : Data) : option (list Item) :=
  match web data with
  | Some w =>
      match results w with
      | Some (i :: l) => Some (i :: l)
      | _ => None
      end
  | None => None
  end.

(** The body of the [try] block once axios has settled. *)
Definition try_body (settled : Completion Data) : Completion (list SearchResult) :=
  match settled with
  | Thrown error => Thrown error
  | Normal data =>
      match web_results data with
      | None => Normal []
      | Some items =>
          Normal (map (fun item =>
                         mkSearchResult (item_url item) (item_title item)
                                        (item_description item)) items)
      end
  end.

Section Adapter.

(** The backend: how the [n]-th request of an invocation settles. *)
Variable backend : Request -> nat -> Completion Data.

(** The [while (retryCount <= maxRetries)] loop. *)
Fixpoint retry_loop (fuel : nat) (req : Request)
         (retryCount : Z) (done : list Event) (sent : nat) : option Run :=
  match fuel with
  | O => None
  | S fuel' =>
      if retryCount <=? maxRetries then
        let done := done ++ [request_sent] in
        match try_body (backend req sent) with
        | Normal found => Some (mkRun (Normal found) done)
        | Thrown error =>
            if rate_limited_status error && (retryCount <? maxRetries) then
              let delay := baseRetryDelay * 2 ^ retryCount in
              retry_loop fuel' req (retryCount + 1)
                         (done ++ [waited_for delay]) (S sent)
            else
              Some (mkRun
                      (Thrown (new_Error ("Brave Search API error: "
                                          +:+ message_text (message error))))
                      done)
        end
      else Some (mkRun (Normal []) done)
  end.

Definition braveSearch (fuel : nat) (env : gmap string string)
           (query : string) (options : Options) : option Run :=
  match env !! "BRAVE_SEARCH_API_KEY" with
  | Some (String c k) =>
      let BRAVE_SEARCH_API_KEY := String c k in
      let num_results := default 10 (num_results options) in
      let lang := default "en" (lang options) in
      let country := default "us" (country options) in
      let timeout := default 5000 (timeout options) in
      retry_loop fuel
                 (mkRequest BRAVE_SEARCH_API_KEY query num_results country lang timeout)
                 0 [] O
  | _ => Some (mkRun (Thrown (new_Error "Brave Search API key not configured")) [])
  end.

End Adapter.

(** The request [braveSearch] sends when the key is [key]. *)
Definition request_of (key query : string) (options : Options) : Request :=
  mkRequest key query (default 10 (num_results options))
            (default "us" (country options)) (default "en" (lang options))
            (default 5000 (timeout options)).

End Brave.

(** ** duckduckgo.ts *)

Module DuckDuckGo.

Record Result := mkResult {
  result_FirstURL : option string;
  result_Text : option string
}.

(** An entry of [RelatedTopics]; a category has a [Topics] array. *)
#[warnings="-register-all"] Inductive Topic : Type :=
  mkTopic (Topics : option (list Topic)) (FirstURL : option string)
          (Text : option string).

Definition Topics (t : Topic) : option (list Topic) :=
  match t with mkTopic ts _ _ => ts end.
Definition FirstURL (t : Topic) : option string :=
  match t with mkTopic _ u _ => u end.
Definition Text (t : Topic) : option string :=
  match t with mkTopic _ _ x => x end.

Record Data := mkData {
  AbstractURL : option string;
  AbstractText : option string;
  AbstractTitle : option string;
  Heading : option string;
  Results : option (list Result);
  RelatedTopics : option (list Topic)
}.

Record Options := mkOptions {
  num_results : option Z;
  region : option string;
  timeout : option Z
}.

Record Request := mkRequest {
  q : string;
  kl : string;
  req_timeout : Z
}.

(** What reading [split] off an [undefined] [topic.Text] throws. *)
Definition TypeError_split : JsError :=
  new_Error "Cannot read properties of undefined (reading 'split')".

(** The abstract, pushed first and without looking at [num_results]. *)
Definition add_abstract (data : Data) (results : list SearchResult)
  : list SearchResult :=
  if JS.truthy (AbstractURL data) && JS.truthy (AbstractText data)
  then results ++ [mkSearchResult (AbstractURL data)
                                  (JS.or (AbstractTitle data) (Heading data))
                                  (AbstractText data)]
  else results.

(** The callback of [response.data.Results.forEach]. *)
Definition push_result (num_results : Z) (results : list SearchResult)
           (result : Result) : list SearchResult :=
  if Z.of_nat (length results) <? num_results
  then results ++ [mkSearchResult (result_FirstURL result) (result_Text result)
                                  (result_Text result)]
  else results.

Definition add_results (num_results : Z) (data : Data)
           (results : list SearchResult) : list SearchResult :=
  match Results data with
  | Some rs => fold_left (push_result num_results) rs results
  | None => results
  end.

(** The callback of [response.data.RelatedTopics.forEach]; [forEach]
    stops at the first callback that throws. *)
Definition push_topic (num_results : Z)
           (acc : Completion (list SearchResult)) (topic : Topic)
  : Completion (list SearchResult) :=
  match acc with
  | Thrown e => Thrown e
  | Normal results =>
      match Topics topic with
      | Some _ => Normal results
      | None =>
          if (Z.of_nat (length results) <? num_results) && JS.truthy (FirstURL topic)
          then
            match Text topic with
            | None => Thrown TypeError_split
            | Some text =>
                Normal (results ++
                          [mkSearchResult (FirstURL topic) (Some text)
                                          (JS.or (JS.split " - " text !! 1%nat)
                                                 (Some text))])
            end
          else Normal results
      end
  end.

Definition add_topics (num_results : Z) (data : Data)
           (results : list SearchResult) : Completion (list SearchResult) :=
  match RelatedTopics data with
  | Some ts => fold_left (push_topic num_results) ts (Normal results)
  | None => Normal results
  end.

(** The body of the [try] block once axios has settled. *)
Definition try_body (num_results : Z) (settled : Completion Data)
  : Completion (list SearchResult) :=
  match settled with
  | Thrown error => Thrown error
  | Normal data =>
      let results := add_abstract data [] in
      let results := add_results num_results data results in
      match add_topics num_results data results with
      | Thrown e => Thrown e
      | Normal results => Normal (JS.slice0 results num_results)
      end
  end.

Section Adapter.

Variable backend : Request -> nat -> Completion Data.

(** The [while (retryCount <= maxRetries)] loop. *)
Fixpoint retry_loop (fuel : nat) (req : Request) (num_results : Z)
         (retryCount : Z) (done : list Event) (sent : nat) : option Run :=
  match fuel with
  | O => None
  | S fuel' =>
      if retryCount <=? maxRetries then
        let done := done ++ [request_sent] in
        match try_body num_results (backend req sent) with
        | Normal found => Some (mkRun (Normal found) done)
        | Thrown error =>
            if rate_limited_status error && (retryCount <? maxRetries) then
              let delay := baseRetryDelay * 2 ^ retryCount in
              retry_loop fuel' req num_results (retryCount + 1)
                         (done ++ [waited_for delay]) (S sent)
            else
              Some (mkRun
                      (Thrown (new_Error ("DuckDuckGo search error: "
                                          +:+ message_text (message error))))
                      done)
        end
      else Some (mkRun (Normal []) done)
  end.

Definition duckduckgoSearch (fuel : nat) (query : string) (options : Options)
  : option Run :=
  let num_results := default 10 (num_results options) in
  let region := default "us-en" (region options) in
  let timeout := default 5000 (timeout options) in
  retry_loop fuel (mkRequest query region timeout) num_results 0 [] O.

End Adapter.

(** *** Vocabulary of the statements *)

(** The request [duckduckgoSearch] sends and the limit it applies. *)
Definition request_of (query : string) (options : Options) : Request :=
  mkRequest query (default "us-en" (region options))
            (default 5000 (timeout options)).

Definition limit_of (options : Options) : Z := default 10 (num_results options).

(** The entry made of an element of [Results]. *)
Definition result_entry (r : Result) : SearchResult :=
  mkSearchResult (result_FirstURL r) (result_Text r) (result_Text r).

(** A related topic that may be pushed: not a category, and with a
    [FirstURL]. *)
Definition eligible (t : Topic) : bool :=
  match Topics t with
  | Some _ => false
  | None => JS.truthy (FirstURL t)
  end.

(** [text.split(' - ')[1] || text] *)
Definition topic_description (text : string) : option string :=
  JS.or (JS.split " - " text !! 1%nat) (Some text).

(** The entry made of a related topic. *)
Definition topic_entry (t : Topic) : SearchResult :=
  mkSearchResult (FirstURL t) (Text t)
                 (match Text t with
                  | Some text => topic_description text
                  | None => None
                  end).

(** The three sections of an answer, one after the other. *)
Definition merged (data : Data) : list SearchResult :=
  add_abstract data []
  ++ map result_entry (default [] (Results data))
  ++ map topic_entry (List.filter eligible (default [] (RelatedTopics data))).


(** The description of a related topic in plain words: the piece of
    the text between its first and its second separator (up to the end
    when there is no second one), and the whole text when there is no
    separator or when that piece is empty. *)
Definition second_piece_or_text (text : string) : string :=
  match JS.cut " - " text with
  | None => text
  | Some (_, rest) =>
      let piece :=
        match JS.cut " - " rest with
        | Some (piece, _) => piece
        | None => rest
        end in
      match piece with
      | EmptyString => text
      | _ => piece
      end
  end.




End DuckDuckGo.

(** ** The front end: [selectSearchProvider] and [search] *)

Module Search.

(** The six strings [selectSearchProvider] returns. *)
Inductive Provider : Type :=
| serper | searchapi | searxng | brave | duckduckgo | google.

#[global] Instance Provider_eq_dec : EqDecision Provider.
Proof. solve_decision. Defined.

Definition provider_name (p : Provider) : string :=
  match p with
  | serper => "serper"
  | searchapi => "searchapi"
  | searxng => "searxng"
  | brave => "brave"
  | duckduckgo => "duckduckgo"
  | google => "google"
  end.

(** The argument of [search], before its defaults are filled in. *)
Record Params := mkParams {
  query : string;
  advanced : option bool;
  num_results : option Z;
  tbs : option string;
  filter : option string;
  lang : option string;
  country : option string;
  location : option string;
  proxy : option string;
  sleep_interval : option Z;
  timeout : option Z
}.

(** The options object handed to serper, searchapi and searxng. *)
Record KeyedOptions := mkKeyedOptions {
  k_num_results : Z;
  k_tbs : option string;
  k_filter : option string;
  k_lang : string;
  k_country : string;
  k_location : option string
}.

(** One adapter invocation with its arguments. *)
Inductive Call : Type :=
| call_serper_search (query : string) (options : KeyedOptions)
| call_searchapi_search (query : string) (options : KeyedOptions)
| call_searxng_search (query : string) (options : KeyedOptions)
| call_braveSearch (query : string) (options : Brave.Options)
| call_duckduckgoSearch (query : string) (options : DuckDuckGo.Options)
| call_googleSearch (query : string) (advanced : bool) (num_results : Z)
                    (tbs filter : option string) (lang country : string)
                    (proxy : option string) (sleep_interval timeout : Z).

(** What the logger receives. *)
Inductive LogEntry : Type :=
| info_cooldown_reset
| warn_no_alternatives
| info_using_provider (provider : string)
| warn_google_rate_limited (failCount : Z)
| info_falling_back (provider : Provider)
| error_in_search (lastProvider : string) (error : JsError).

(** The module variables [lastProvider], [googleFailCount] and
    [lastGoogleFailure], with the logger's output and the adapter
    invocations made so far. *)
Record State := mkState {
  lastProvider : string;
  googleFailCount : Z;
  lastGoogleFailure : Z;
  logged : list LogEntry;
  invoked : list Call
}.

Definition initial : State := mkState "" 0 0 [] [].

Definition MAX_GOOGLE_FAILURES : Z := 5.
Definition GOOGLE_FAILURE_RESET_TIME : Z := 30 * 60 * 1000.

(** What the process sees around it at one moment: [process.env] and
    [Date.now()]. *)
Record Ambient := mkAmbient {
  env : gmap string string;
  now : Z
}.

(** [!!process.env[name]] *)
Definition configured (amb : Ambient) (name : string) : bool :=
  JS.truthy (env amb !! name).

(** *** State and exceptions *)

Definition Eff (A : Type) : Type := State -> Completion A * State.

#[global] Instance Eff_ret : MRet Eff := fun A a st => (Normal a, st).

#[global] Instance Eff_bind : MBind Eff := fun A B k m st =>
  match m st with
  | (Normal a, st') => k a st'
  | (Thrown e, st') => (Thrown e, st')
  end.

Definition throw {A} (e : JsError) : Eff A := fun st => (Thrown e, st).

(** [try { body } catch (error) { handler error }] *)
Definition try_catch {A} (body : Eff A) (handler : JsError -> Eff A) : Eff A :=
  fun st =>
    match body st with
    | (Normal a, st') => (Normal a, st')
    | (Thrown e, st') => handler e st'
    end.

Definition read {A} (f : State -> A) : Eff A := fun st => (Normal (f st), st).

Definition set_lastProvider (v : string) : Eff unit := fun st =>
  (Normal tt, mkState v (googleFailCount st) (lastGoogleFailure st)
                      (logged st) (invoked st)).

Definition set_googleFailCount (v : Z) : Eff unit := fun st =>
  (Normal tt, mkState (lastProvider st) v (lastGoogleFailure st)
                      (logged st) (invoked st)).

Definition set_lastGoogleFailure (v : Z) : Eff unit := fun st =>
  (Normal tt, mkState (lastProvider st) (googleFailCount st) v
                      (logged st) (invoked st)).

Definition log (entry : LogEntry) : Eff unit := fun st =>
  (Normal tt, mkState (lastProvider st) (googleFailCount st)
                      (lastGoogleFailure st) (logged st ++ [entry]) (invoked st)).

(** *** selectSearchProvider *)

(** Its first statement: the failure count is forgotten once the last
    failure is old enough. *)
Definition cooldown_recovery (amb : Ambient) : Eff unit :=
  failCount ← read googleFailCount;
  lastFailure ← read lastGoogleFailure;
  if (0 <? failCount) && (GOOGLE_FAILURE_RESET_TIME <? now amb - lastFailure)
  then set_googleFailCount 0;; log info_cooldown_reset
  else mret tt.

Definition selectSearchProvider (amb : Ambient) : Eff Provider :=
  cooldown_recovery amb;;
  let hasSerper := configured amb "SERPER_API_KEY" in
  let hasSearchAPI := configured amb "SEARCHAPI_API_KEY" in
  let hasSearxNG := configured amb "SEARXNG_ENDPOINT" in
  let hasBraveSearch := configured amb "BRAVE_SEARCH_API_KEY" in
  let hasDuckDuckGo := configured amb "DUCKDUCKGO_ENABLED" in
  failCount ← read googleFailCount;
  if MAX_GOOGLE_FAILURES <=? failCount then
    if hasSerper then mret serper
    else if hasSearchAPI then mret searchapi
    else if hasSearxNG then mret searxng
    else if hasBraveSearch then mret brave
    else if hasDuckDuckGo then mret duckduckgo
    else
      log warn_no_alternatives;;
      set_googleFailCount 0;;
      mret google
  else
    if hasSerper then mret serper
    else if hasSearchAPI then mret searchapi
    else if hasSearxNG then mret searxng
    else if hasBraveSearch then mret brave
    else if hasDuckDuckGo then mret duckduckgo
    else mret google.

(** *** search *)

(** [error.message && error.message.includes("Too many requests")] *)
Definition rate_limited_message (error : JsError) : bool :=
  match message error with
  | Some m => JS.truthy (Some m) && JS.includes "Too many requests" m
  | None => false
  end.

Section Search.

(** How each adapter invocation settles. *)
Variable respond : Call -> Completion (list SearchResult).

(** The surroundings when the provider is selected, and when the
    handler of a failed [googleSearch] runs: both [process.env] and the
    clock are consulted again there, after the call has been awaited,
    and [process.env] is an object any code of the process may have
    written to in between. *)
Variables at_select at_failure : Ambient.

(** [await adapter(...)] *)
Definition await (c : Call) : Eff (list SearchResult) := fun st =>
  (respond c, mkState (lastProvider st) (googleFailCount st)
                      (lastGoogleFailure st) (logged st) (invoked st ++ [c])).

(** The handler of the inner [try], around [googleSearch]. *)
Definition on_google_error (query : string) (num_results : Z)
           (tbs filter : option string) (lang country : string)
           (location : option string) (timeout : Z) (error : JsError)
  : Eff (list SearchResult) :=
  let keyed := mkKeyedOptions num_results tbs filter lang country location in
  if rate_limited_message error then
    failCount ← read googleFailCount;
    set_googleFailCount (failCount + 1);;
    set_lastGoogleFailure (now at_failure);;
    failCount ← read googleFailCount;
    log (warn_google_rate_limited failCount);;
    if configured at_failure "BRAVE_SEARCH_API_KEY" then
      log (info_falling_back brave);;
      await (call_braveSearch query
               (Brave.mkOptions (Some num_results) (Some lang) (Some country)
                                (Some timeout)))
    else if configured at_failure "DUCKDUCKGO_ENABLED" then
      log (info_falling_back duckduckgo);;
      await (call_duckduckgoSearch query
               (DuckDuckGo.mkOptions (Some num_results) (Some country)
                                     (Some timeout)))
    else if configured at_failure "SERPER_API_KEY" then
      log (info_falling_back serper);;
      await (call_serper_search query keyed)
    else if configured at_failure "SEARCHAPI_API_KEY" then
      log (info_falling_back searchapi);;
      await (call_searchapi_search query keyed)
    else if configured at_failure "SEARXNG_ENDPOINT" then
      log (info_falling_back searxng);;
      await (call_searxng_search query keyed)
    else throw error
  else throw error.

(** The body of the outer [try]. *)
Definition search_body (p : Params) : Eff (list SearchResult) :=
  let query := query p in
  let advanced := default false (advanced p) in
  let num_results := default 5 (num_results p) in
  let tbs := tbs p in
  let filter := filter p in
  let lang := default "en" (lang p) in
  let country := default "us" (country p) in
  let location := location p in
  let proxy := proxy p in
  let sleep_interval := default 2 (sleep_interval p) in
  let timeout := default 5000 (timeout p) in
  let keyed := mkKeyedOptions num_results tbs filter lang country location in
  provider ← selectSearchProvider at_select;
  set_lastProvider (provider_name provider);;
  log (info_using_provider (provider_name provider));;
  match provider with
  | serper => await (call_serper_search query keyed)
  | searchapi => await (call_searchapi_search query keyed)
  | searxng => await (call_searxng_search query keyed)
  | brave =>
      await (call_braveSearch query
               (Brave.mkOptions (Some num_results) (Some lang) (Some country)
                                (Some timeout)))
  | duckduckgo =>
      await (call_duckduckgoSearch query
               (DuckDuckGo.mkOptions (Some num_results) (Some country)
                                     (Some timeout)))
  | google =>
      try_catch
        (await (call_googleSearch query advanced num_results tbs filter lang
                                  country proxy sleep_interval timeout))
        (on_google_error query num_results tbs filter lang country location
                         timeout)
  end.

Definition search (p : Params) : Eff (list SearchResult) :=
  try_catch (search_body p)
            (fun error =>
               provider ← read lastProvider;
               log (error_in_search provider error);;
               mret []).

End Search.

(** *** Vocabulary of the statements *)

(** The setting whose presence makes an alternative available. *)
Definition setting_of (p : Provider) : option string :=
  match p with
  | serper => Some "SERPER_API_KEY"
  | searchapi => Some "SEARCHAPI_API_KEY"
  | searxng => Some "SEARXNG_ENDPOINT"
  | brave => Some "BRAVE_SEARCH_API_KEY"
  | duckduckgo => Some "DUCKDUCKGO_ENABLED"
  | google => None
  end.

Definition available (amb : Ambient) (p : Provider) : bool :=
  match setting_of p with
  | Some name => configured amb name
  | None => false
  end.

(** The order in which [selectSearchProvider] looks at the alternatives. *)
Definition resolver_order : list Provider :=
  [serper; searchapi; searxng; brave; duckduckgo].

(** The order in which the handler of a failed [googleSearch] looks at
    them. *)
Definition fallback_order : list Provider :=
  [brave; duckduckgo; serper; searchapi; searxng].

(** The first available alternative of an order. *)
Definition first_available (amb : Ambient) (order : list Provider)
  : option Provider :=
  head (List.filter (available amb) order).

(** The invocation [search] makes of a provider's adapter, with the
    options translated for that adapter. *)
Definition call_for (provider : Provider) (p : Params) : Call :=
  let num_results := default 5 (num_results p) in
  let lang := default "en" (lang p) in
  let country := default "us" (country p) in
  let timeout := default 5000 (timeout p) in
  let keyed :=
    mkKeyedOptions num_results (tbs p) (filter p) lang country (location p) in
  match provider with
  | serper => call_serper_search (query p) keyed
  | searchapi => call_searchapi_search (query p) keyed
  | searxng => call_searxng_search (query p) keyed
  | brave =>
      call_braveSearch (query p)
        (Brave.mkOptions (Some num_results) (Some lang) (Some country)
                         (Some timeout))
  | duckduckgo =>
      call_duckduckgoSearch (query p)
        (DuckDuckGo.mkOptions (Some num_results) (Some country) (Some timeout))
  | google =>
      call_googleSearch (query p) (default false (advanced p)) num_results
                        (tbs p) (filter p) lang country (proxy p)
                        (default 2 (sleep_interval p)) timeout
  end.

(** The state after the cooldown check of [selectSearchProvider]. *)
Definition cooled (amb : Ambient) (st : State) : bool :=
  (0 <? googleFailCount st)
  && (GOOGLE_FAILURE_RESET_TIME <? now amb - lastGoogleFailure st).

Definition after_cooldown (amb : Ambient) (st : State) : State :=
  if cooled amb st
  then mkState (lastProvider st) 0 (lastGoogleFailure st)
               (logged st ++ [info_cooldown_reset]) (invoked st)
  else st.

(** The state once a provider is chosen and announced, *)
Definition announced (provider : Provider) (st : State) : State :=
  mkState (provider_name provider) (googleFailCount st) (lastGoogleFailure st)
          (logged st ++ [info_using_provider (provider_name provider)])
          (invoked st).

(** once an adapter has been invoked, *)
Definition with_call (c : Call) (st : State) : State :=
  mkState (lastProvider st) (googleFailCount st) (lastGoogleFailure st)
          (logged st) (invoked st ++ [c]).

(** once an entry has been logged, *)
Definition with_log (entry : LogEntry) (st : State) : State :=
  mkState (lastProvider st) (googleFailCount st) (lastGoogleFailure st)
          (logged st ++ [entry]) (invoked st).

(** and once a rate-limited failure of the primary has been recorded. *)
Definition failure_recorded (amb : Ambient) (st : State) : State :=
  mkState (lastProvider st) (googleFailCount st + 1) (now amb)
          (logged st ++ [warn_google_rate_limited (googleFailCount st + 1)])
          (invoked st).

(** What a settled invocation is worth to the caller of [search]. *)
Definition results_or_empty (c : Completion (list SearchResult))
  : list SearchResult :=
  match c with
  | Normal found => found
  | Thrown _ => []
  end.

(** The fallback as the specification words it: walk the alternatives
    in the given order, trying the configured ones until one succeeds;
    the empty list when all are exhausted. *)
Fixpoint spec_fallback_walk (respond : Call -> Completion (list SearchResult))
         (amb : Ambient) (order : list Provider) (p : Params)
  : list SearchResult :=
  match order with
  | [] => []
  | alt :: rest =>
      if available amb alt then
        match respond (call_for alt p) with
        | Normal found => found
        | Thrown _ => spec_fallback_walk respond amb rest p
        end
      else spec_fallback_walk respond amb rest p
  end.

End Search.

(** ** Concrete inputs used by the examples below *)

Module Samples.

Import Search.

Definition hit : SearchResult :=
  mkSearchResult (Some "https://example.org/") (Some "Example") (Some "An example").

(** No alternative configured. *)
Definition bare : Ambient := mkAmbient ∅ 1000.

(** Only the Brave key is set. *)
Definition with_brave : Ambient :=
  mkAmbient {[ "BRAVE_SEARCH_API_KEY" := "brave-key" ]} 2000.

(** The Serper and the Brave keys are set. *)
Definition with_serper_and_brave : Ambient :=
  mkAmbient {[ "SERPER_API_KEY" := "serper-key";
               "BRAVE_SEARCH_API_KEY" := "brave-key" ]} 2000.

(** Another Brave key, an unrelated variable, the same time. *)
Definition with_brave_elsewhere : Ambient :=
  mkAmbient {[ "BRAVE_SEARCH_API_KEY" := "another-key"; "HOME" := "/srv" ]} 2000.

(** Seven failures, the last of them at time 0. *)
Definition seven_failures : State := mkState "google" 7 0 [] [].

(** The same counters after some activity. *)
Definition seven_failures_later : State :=
  mkState "brave" 7 0 [info_using_provider "brave"]
          [call_braveSearch "earlier" (Brave.mkOptions None None None None)].

(** The Serper key is set to the empty string. *)
Definition with_empty_serper : Ambient :=
  mkAmbient {[ "SERPER_API_KEY" := "" ]} 1000.

(** More than thirty minutes after time 0. *)
Definition much_later : Ambient := mkAmbient ∅ 1800001.

Definition plain_query : Params :=
  mkParams "rocq" None None None None None None None None None None.

(** The primary is rate limited, Brave fails, everything else finds
    [hit]. *)
Definition google_limited_brave_down (c : Call)
  : Completion (list SearchResult) :=
  match c with
  | call_googleSearch _ _ _ _ _ _ _ _ _ _ =>
      Thrown (new_Error "Too many requests")
  | call_braveSearch _ _ =>
      Thrown (new_Error "Brave Search API error: timeout of 5000ms exceeded")
  | _ => Normal [hit]
  end.

(** The primary is rate limited, everything else finds [hit]. *)
Definition google_limited (c : Call) : Completion (list SearchResult) :=
  match c with
  | call_googleSearch _ _ _ _ _ _ _ _ _ _ =>
      Thrown (new_Error "Too many requests")
  | _ => Normal [hit]
  end.

(** The primary fails for another reason. *)
Definition google_unreachable (c : Call) : Completion (list SearchResult) :=
  match c with
  | call_googleSearch _ _ _ _ _ _ _ _ _ _ =>
      Thrown (new_Error "connect ECONNREFUSED")
  | _ => Normal [hit]
  end.

(** An HTTP 429 as axios reports it. *)
Definition http_429 : JsError :=
  mkError (Some "Request failed with status code 429") (Some 429).

(** A Brave backend that answers 429 three times and then finds
    [hit]. *)
Definition brave_limited_thrice (req : Brave.Request) (i : nat)
  : Completion Brave.Data :=
  if (i <? 3)%nat then Thrown http_429
  else Normal (Brave.mkData
                 (Some (Brave.mkWeb
                          (Some [Brave.mkItem (Some "https://example.org/")
                                              (Some "Example")
                                              (Some "An example")])))).

Definition brave_options : Brave.Options :=
  Brave.mkOptions (Some 5) (Some "en") (Some "us") (Some 5000).

(** An answer with an abstract, two results, a category and a plain
    related topic. *)
Definition ddg_answer : DuckDuckGo.Data :=
  DuckDuckGo.mkData
    (Some "https://rocq-prover.org/") (Some "Rocq is a proof assistant.")
    (Some "Rocq") (Some "Rocq (software)")
    (Some [DuckDuckGo.mkResult (Some "https://rocq-prover.org/doc")
                               (Some "Documentation");
           DuckDuckGo.mkResult (Some "https://rocq-prover.org/install")
                               (Some "Install")])
    (Some [DuckDuckGo.mkTopic (Some []) None None;
           DuckDuckGo.mkTopic None (Some "https://duckduckgo.com/Proof_assistant")
                              (Some "Proof assistant - Software for formal proofs - Category")]).

(** A DuckDuckGo backend that answers 429 three times and then
    [ddg_answer]. *)
Definition ddg_limited_thrice (req : DuckDuckGo.Request) (i : nat)
  : Completion DuckDuckGo.Data :=
  if (i <? 3)%nat then Thrown http_429 else Normal ddg_answer.

Definition ddg_options : DuckDuckGo.Options :=
  DuckDuckGo.mkOptions (Some 5) (Some "us") (Some 5000).

(** The same with room for one entry only. *)
Definition ddg_options_one : DuckDuckGo.Options :=
  DuckDuckGo.mkOptions (Some 1) (Some "us") (Some 5000).

(** A Brave backend that finds nothing. *)
Definition brave_finds_nothing (req : Brave.Request) (i : nat)
  : Completion Brave.Data :=
  Normal (Brave.mkData (Some (Brave.mkWeb (Some [])))).

(** The Brave and DuckDuckGo invocations of [search] carried out by the
    adapters above, on given backends; the other adapters find [hit]. *)
Definition through_adapters
           (env : gmap string string)
           (brave_backend : Brave.Request -> nat -> Completion Brave.Data)
           (ddg_backend : DuckDuckGo.Request -> nat -> Completion DuckDuckGo.Data)
           (c : Call) : Completion (list SearchResult) :=
  match c with
  | call_braveSearch query options =>
      match Brave.braveSearch brave_backend 4 env query options with
      | Some run => outcome run
      | None => Normal []
      end
  | call_duckduckgoSearch query options =>
      match DuckDuckGo.duckduckgoSearch ddg_backend 4 query options with
      | Some run => outcome run
      | None => Normal []
      end
  | _ => Normal [hit]
  end.

(** A backend that answers at once. *)
Definition ddg_answers (data : DuckDuckGo.Data) (req : DuckDuckGo.Request)
           (i : nat) : Completion DuckDuckGo.Data :=
  Normal data.


(** An answer whose only result has a text and no [FirstURL]. *)
Definition ddg_result_without_url : DuckDuckGo.Data :=
  DuckDuckGo.mkData None None None None
    (Some [DuckDuckGo.mkResult None (Some "Untitled")]) None.

(** An answer whose related topic has a [FirstURL] and no [Text]. *)
Definition ddg_topic_without_text : DuckDuckGo.Data :=
  DuckDuckGo.mkData None None None None None
    (Some [DuckDuckGo.mkTopic None (Some "https://duckduckgo.com/A") None]).

End Samples.

(** ** Vocabulary of the further properties *)

(** The items of a Brave answer: those of [web.results], none when
    [web] or [web.results] is missing. *)
Definition brave_items (data : Brave.Data) : list Brave.Item :=
  match Brave.web data with
  | Some w => default [] (Brave.results w)
  | None => []
  end.

(** The entry [braveSearch] makes of an item. *)
Definition brave_entry (item : Brave.Item) : SearchResult :=
  mkSearchResult (Brave.item_url item) (Brave.item_title item)
                 (Brave.item_description item).

(** The time a run spends waiting, in milliseconds. *)
Definition total_wait (r : Run) : Z :=
  fold_right (fun ev acc => match ev with
                            | request_sent => acc
                            | waited_for ms => ms + acc
                            end) 0 (events r).

Module Sessions.

Import Search.

(** One call of [search] with what surrounds it. *)
Record Request := mkRequest {
  respond : Call -> Completion (list SearchResult);
  at_select : Ambient;
  at_failure : Ambient;
  params : Params
}.

(** The module's state after one call that runs alone, and after a
    sequence of calls each of which has settled before the next is
    made.  [search] is asynchronous: calls that overlap in time are
    not described by [serve_all]. *)
Definition serve (st : State) (r : Request) : State :=
  snd (search (respond r) (at_select r) (at_failure r) (params r) st).

Definition serve_all (rs : list Request) (st : State) : State :=
  fold_left serve rs st.

(** A call whose [advanced], [proxy] and [sleep_interval] are replaced. *)
Definition with_primary_options (p : Params) (advanced : option bool)
           (proxy : option string) (sleep_interval : option Z) : Params :=
  mkParams (query p) advanced (num_results p) (tbs p) (filter p) (lang p)
           (country p) (location p) proxy sleep_interval (timeout p).

End Sessions.

Module MoreSamples.

Import Search.

(** The primary finds [Samples.hit]. *)
Definition google_finds (c : Call) : Completion (list SearchResult) :=
  Normal [Samples.hit].

(** Three failures, the last of them at time 500. *)
Definition three_failures : State := mkState "google" 3 500 [] [].

(** A Brave backend that finds three items. *)
Definition brave_finds_three (req : Brave.Request) (i : nat)
  : Completion Brave.Data :=
  Normal (Brave.mkData
            (Some (Brave.mkWeb
                     (Some [Brave.mkItem (Some "https://a.example/") (Some "A") (Some "a");
                            Brave.mkItem (Some "https://b.example/") (Some "B") None;
                            Brave.mkItem (Some "https://c.example/") None None])))).

(** Options that ask Brave for one result. *)
Definition brave_one : Brave.Options :=
  Brave.mkOptions (Some 1) None None None.

(** A backend that is always rate limited. *)
Definition ddg_always_limited (req : DuckDuckGo.Request) (i : nat)
  : Completion DuckDuckGo.Data :=
  Thrown Samples.http_429.

(** An answer with an abstract, one result, and a related topic that
    has a [FirstURL] and no [Text]. *)
Definition ddg_broken_topic : DuckDuckGo.Data :=
  DuckDuckGo.mkData
    (Some "https://rocq-prover.org/") (Some "Rocq is a proof assistant.")
    None (Some "Rocq")
    (Some [DuckDuckGo.mkResult (Some "https://rocq-prover.org/doc")
                               (Some "Documentation")])
    (Some [DuckDuckGo.mkTopic None (Some "https://duckduckgo.com/A") None]).

End MoreSamples.

(** * Properties *)

#[local] Arguments String.append _ _ : simpl nomatch.
#[local] Arguments Search.configured : simpl never.
#[local] Arguments Search.rate_limited_message : simpl never.

(** ** Strings *)

Section Strings.

Implicit Types s sep needle : string.

Lemma string_app_assoc (a b c : string) : (a +:+ b) +:+ c = a +:+ (b +:+ c).
Proof. induction a; simpl; congruence. Qed.

Lemma string_app_nil_r (a : string) : a +:+ "" = a.
Proof. induction a; simpl; congruence. Qed.

Lemma startsWith_app p s : JS.startsWith p s = true <-> exists r, s = p +:+ r.
Proof.
  revert s. induction p as [|a p IH]; intros s; simpl.
  - split; eauto.
  - destruct s as [|b s]; simpl.
    + split; [discriminate|]. intros [r H]. discriminate.
    + destruct (Ascii.eqb a b) eqn:Hab.
      * apply Ascii.eqb_eq in Hab as ->. rewrite IH.
        split; intros [r H]; exists r; simpl in *; congruence.
      * split; [discriminate|]. intros [r H]. simpl in H. injection H as -> _.
        rewrite Ascii.eqb_refl in Hab. discriminate.
Qed.

(** [includes] finds exactly the substrings. *)
Lemma includes_app needle s :
  JS.includes needle s = true <-> exists a b, s = a +:+ needle +:+ b.
Proof.
  induction s as [|c s IH]; simpl.
  - rewrite orb_false_r, startsWith_app. split.
    + intros [r H]. exists "", r. exact H.
    + intros (a & b & H). destruct a; simpl in H; [eauto|discriminate].
  - rewrite orb_true_iff, startsWith_app, IH. split.
    + intros [[r H]|(a & b & H)].
      * exists "", r. exact H.
      * exists (String c a), b. simpl. now f_equal.
    + intros (a & b & H). destruct a as [|c' a]; simpl in H.
      * left. eauto.
      * right. injection H as _ H. eauto.
Qed.

Lemma skip_chars_app p r : JS.skip_chars (String.length p) (p +:+ r) = r.
Proof. induction p; simpl; auto. Qed.

Lemma startsWith_skip sep s :
  JS.startsWith sep s = true ->
  s = sep +:+ JS.skip_chars (String.length sep) s.
Proof.
  intros H. apply startsWith_app in H as [r ->]. now rewrite skip_chars_app.
Qed.

(** [cut] splits around an occurrence of the separator, *)
Lemma cut_sound sep s before after :
  JS.cut sep s = Some (before, after) -> s = before +:+ sep +:+ after.
Proof.
  revert before after.
  induction s as [|c s IH]; intros before after; cbn [JS.cut].
  - destruct (JS.startsWith sep "") eqn:Hs; [|discriminate].
    intros [= <- <-]. now apply startsWith_skip.
  - destruct (JS.startsWith sep (String c s)) eqn:Hs.
    + intros [= <- <-]. now apply startsWith_skip.
    + destruct (JS.cut sep s) as [[b a]|]; [|discriminate].
      intros [= <- <-]. simpl. f_equal. now apply IH.
Qed.


Lemma split_from_skip sep k cur s :
  JS.split_from sep k cur s = JS.split_from sep O cur (JS.skip_chars k s).
Proof.
  revert k. induction s as [|c s IH]; intros [|k]; simpl; auto.
Qed.

Lemma split_from_cut sep s : sep <> "" -> forall cur,
  JS.split_from sep O cur s =
  match JS.cut sep s with
  | Some (before, after) => (cur +:+ before) :: JS.split_from sep O "" after
  | None => [cur +:+ s]
  end.
Proof.
  intros Hsep. induction s as [|c s IH]; intros cur.
  - simpl. destruct (JS.startsWith sep "") eqn:Hs.
    + apply startsWith_app in Hs as [r Hr].
      destruct sep; [congruence|discriminate].
    + now rewrite string_app_nil_r.
  - cbn [JS.cut JS.split_from].
    destruct (JS.startsWith sep (String c s)) eqn:Hs.
    + rewrite string_app_nil_r. f_equal.
      rewrite split_from_skip. destruct sep as [|a sep]; [congruence|].
      reflexivity.
    + rewrite IH.
      destruct (JS.cut sep s) as [[b a]|]; now rewrite string_app_assoc.
Qed.

(** [split] cuts at the first separator and goes on with what follows. *)
Lemma split_cut sep s : sep <> "" ->
  JS.split sep s =
  match JS.cut sep s with
  | Some (before, after) => before :: JS.split sep after
  | None => [s]
  end.
Proof.
  intros H. unfold JS.split. rewrite split_from_cut by exact H. reflexivity.
Qed.

Example split_three : JS.split " - " "A - B - C" = ["A"; "B"; "C"].
Proof. reflexivity. Qed.

Example split_trailing : JS.split " - " "A - " = ["A"; ""].
Proof. reflexivity. Qed.

Example includes_rate_limit :
  JS.includes "Too many requests" "Error: Too many requests (429)" = true.
Proof. reflexivity. Qed.

End Strings.

(** ** The resolver *)

Section Resolver.

Import Search.

Implicit Types (amb : Ambient) (st : State) (alt : Provider).

Lemma cooldown_recovery_run amb st :
  cooldown_recovery amb st = (Normal tt, after_cooldown amb st).
Proof.
  unfold cooldown_recovery, after_cooldown, cooled, mbind, Eff_bind, read.
  destruct st as [lp c l lg inv]; simpl.
  destruct ((0 <? c) && (GOOGLE_FAILURE_RESET_TIME <? now amb - l));
    reflexivity.
Qed.

Ltac case_flags amb :=
  destruct (configured amb "SERPER_API_KEY");
  destruct (configured amb "SEARCHAPI_API_KEY");
  destruct (configured amb "SEARXNG_ENDPOINT");
  destruct (configured amb "BRAVE_SEARCH_API_KEY");
  destruct (configured amb "DUCKDUCKGO_ENABLED").

(** What [selectSearchProvider] returns and leaves behind, in one
    expression. *)
Lemma selectSearchProvider_run amb st :
  selectSearchProvider amb st =
  let st1 := after_cooldown amb st in
  match first_available amb resolver_order with
  | Some alt => (Normal alt, st1)
  | None =>
      if MAX_GOOGLE_FAILURES <=? googleFailCount st1
      then (Normal google, with_log warn_no_alternatives
                             (mkState (lastProvider st1) 0 (lastGoogleFailure st1)
                                      (logged st1) (invoked st1)))
      else (Normal google, st1)
  end.
Proof.
  unfold selectSearchProvider, mbind, Eff_bind.
  rewrite cooldown_recovery_run.
  unfold first_available, resolver_order, available, setting_of, read.
  cbn [List.filter head].
  generalize (after_cooldown amb st) as st1; intros st1.
  case_flags amb; cbn [head];
    destruct (MAX_GOOGLE_FAILURES <=? googleFailCount st1); reflexivity.
Qed.

Lemma first_available_none amb order :
  first_available amb order = None <->
  (forall alt, In alt order -> available amb alt = false).
Proof.
  unfold first_available. induction order as [|a l IH]; simpl.
  - split; [intros _ alt [] | reflexivity].
  - destruct (available amb a) eqn:Ha; simpl.
    + split; [discriminate|]. intros H.
      specialize (H a (or_introl eq_refl)). congruence.
    + rewrite IH. split.
      * intros H alt [<-|Hin]; auto.
      * intros H alt Hin. apply H. now right.
Qed.

Lemma first_available_some amb order alt :
  first_available amb order = Some alt ->
  In alt order /\ available amb alt = true.
Proof.
  unfold first_available.
  induction order as [|a l IH]; simpl; [discriminate|].
  destruct (available amb a) eqn:Ha; simpl.
  - intros [= <-]. auto.
  - intros H. destruct (IH H). auto.
Qed.

Lemma alternatives_in_resolver_order alt :
  alt <> google -> In alt resolver_order.
Proof. destruct alt; simpl; intros H; try congruence; auto 10. Qed.

Lemma alternatives_in_fallback_order alt :
  alt <> google -> In alt fallback_order.
Proof. destruct alt; simpl; intros H; try congruence; auto 10. Qed.

(** [selectSearchProvider] never throws, invokes no adapter and leaves
    [lastProvider] and [lastGoogleFailure] alone. *)
Lemma selectSearchProvider_frame amb st :
  exists provider st',
    selectSearchProvider amb st = (Normal provider, st') /\
    lastProvider st' = lastProvider st /\
    lastGoogleFailure st' = lastGoogleFailure st /\
    invoked st' = invoked st.
Proof.
  rewrite selectSearchProvider_run. cbv zeta.
  assert (Hframe : lastProvider (after_cooldown amb st) = lastProvider st /\
                   lastGoogleFailure (after_cooldown amb st) = lastGoogleFailure st /\
                   invoked (after_cooldown amb st) = invoked st).
  { unfold after_cooldown. destruct (cooled amb st); simpl; auto. }
  destruct (first_available amb resolver_order) as [alt|].
  - eauto.
  - destruct (MAX_GOOGLE_FAILURES <=? _); eexists _, _; (split; [reflexivity|]);
      simpl; tauto.
Qed.

(** The primary is only resolved when no alternative is configured. *)
Lemma select_google_no_alternative amb st st0 :
  selectSearchProvider amb st = (Normal google, st0) ->
  forall alt, available amb alt = false.
Proof.
  rewrite selectSearchProvider_run. cbv zeta.
  destruct (first_available amb resolver_order) as [a|] eqn:Hfa.
  - intros [= -> _]. apply first_available_some in Hfa as [_ Hav].
    discriminate.
  - intros _ alt. destruct (decide (alt = google)) as [->|Hne]; [reflexivity|].
    rewrite first_available_none in Hfa.
    apply Hfa, alternatives_in_resolver_order, Hne.
Qed.

Lemma after_cooldown_idem amb st :
  after_cooldown amb (after_cooldown amb st) = after_cooldown amb st.
Proof.
  unfold after_cooldown at 2 3. destruct (cooled amb st) eqn:Hc.
  - reflexivity.
  - unfold after_cooldown. now rewrite Hc.
Qed.

(** C4: whenever at least one alternative's setting is present,
    [selectSearchProvider] does not return the primary, whatever the
    failure count is; it returns the first configured alternative in
    the order serper, searchapi, searxng, brave, duckduckgo. *)
Theorem select_prefers_alternatives amb st :
  (exists alt, alt <> google /\ available amb alt = true) ->
  exists alt st',
    selectSearchProvider amb st = (Normal alt, st') /\
    alt <> google /\
    first_available amb resolver_order = Some alt.
Proof.
  intros (a & Hne & Hav).
  rewrite selectSearchProvider_run. cbv zeta.
  destruct (first_available amb resolver_order) as [alt|] eqn:Hfa.
  - exists alt, (after_cooldown amb st).
    split; [reflexivity|]. split; [|reflexivity].
    apply first_available_some in Hfa as [_ Halt].
    intros ->. discriminate.
  - exfalso. rewrite first_available_none in Hfa.
    rewrite (Hfa a (alternatives_in_resolver_order a Hne)) in Hav.
    discriminate.
Qed.

Lemma select_prefers_alternatives_witness :
  exists alt st',
    selectSearchProvider Samples.with_brave Samples.seven_failures
    = (Normal alt, st') /\
    alt <> google /\
    first_available Samples.with_brave resolver_order = Some alt.
Proof.
  apply select_prefers_alternatives.
  exists brave. split; [discriminate | reflexivity].
Defined.

(** C5: when no alternative's setting is present,
    [selectSearchProvider] returns the primary for every value of the
    failure count; a count of [MAX_GOOGLE_FAILURES] or more is reset
    to 0 on the way. *)
Theorem select_primary_without_alternatives amb st :
  (forall alt, available amb alt = false) ->
  exists st',
    selectSearchProvider amb st = (Normal google, st') /\
    (MAX_GOOGLE_FAILURES <= googleFailCount st -> googleFailCount st' = 0) /\
    (googleFailCount st < MAX_GOOGLE_FAILURES ->
     googleFailCount st' = googleFailCount st \/ googleFailCount st' = 0).
Proof.
  intros Hnone.
  rewrite selectSearchProvider_run. cbv zeta.
  destruct (first_available amb resolver_order) as [alt|] eqn:Hfa.
  - apply first_available_some in Hfa as [_ Halt].
    rewrite Hnone in Halt. discriminate.
  - unfold after_cooldown, cooled, MAX_GOOGLE_FAILURES.
    destruct st as [lp c l lg inv]; simpl.
    destruct ((0 <? c) && _) eqn:Hc; simpl.
    + eexists; split; [reflexivity|]. simpl. auto.
    + destruct (5 <=? c) eqn:H5; eexists; (split; [reflexivity|]); simpl.
      * auto.
      * apply Z.leb_gt in H5. split; [lia | auto].
Qed.

Lemma bare_has_no_alternative alt : available Samples.bare alt = false.
Proof. destruct alt; reflexivity. Qed.

Lemma select_primary_without_alternatives_witness :
  exists st',
    selectSearchProvider Samples.bare Samples.seven_failures
    = (Normal google, st') /\
    (MAX_GOOGLE_FAILURES <= googleFailCount Samples.seven_failures ->
     googleFailCount st' = 0) /\
    (googleFailCount Samples.seven_failures < MAX_GOOGLE_FAILURES ->
     googleFailCount st' = googleFailCount Samples.seven_failures
     \/ googleFailCount st' = 0).
Proof.
  apply select_primary_without_alternatives. exact bare_has_no_alternative.
Defined.

(** C6: [selectSearchProvider] begins with the cooldown test.  When the
    failure count is positive and more than thirty minutes have passed
    since the last recorded failure, the count is reset to 0 (and the
    reset logged) before anything is decided: the threshold test that
    follows sees 0, so the provider is the first configured alternative
    or the primary, and the count it leaves is 0 whatever it was.
    Otherwise this step changes nothing: the decision is made on the
    count as it stood, and the state is left as it was unless the
    threshold branch without alternatives resets the count. *)
Theorem cooldown_resets_before_selection amb st :
  (0 < googleFailCount st /\
   now amb - lastGoogleFailure st > 30 * 60 * 1000 ->
   selectSearchProvider amb st =
   (Normal (default google (first_available amb resolver_order)),
    mkState (lastProvider st) 0 (lastGoogleFailure st)
            (logged st ++ [info_cooldown_reset]) (invoked st))) /\
  (~ (0 < googleFailCount st /\
      now amb - lastGoogleFailure st > 30 * 60 * 1000) ->
   selectSearchProvider amb st =
   match first_available amb resolver_order with
   | Some alt => (Normal alt, st)
   | None =>
       if MAX_GOOGLE_FAILURES <=? googleFailCount st
       then (Normal google,
             mkState (lastProvider st) 0 (lastGoogleFailure st)
                     (logged st ++ [warn_no_alternatives]) (invoked st))
       else (Normal google, st)
   end).
Proof.
  assert (Hc : cooled amb st = true <->
               0 < googleFailCount st /\
               now amb - lastGoogleFailure st > 30 * 60 * 1000).
  { unfold cooled, GOOGLE_FAILURE_RESET_TIME.
    rewrite andb_true_iff, !Z.ltb_lt. lia. }
  rewrite selectSearchProvider_run. cbv zeta. unfold after_cooldown.
  split; intros H.
  - apply Hc in H. rewrite H.
    destruct (first_available amb resolver_order); reflexivity.
  - destruct (cooled amb st); [exfalso; apply H, Hc; reflexivity|].
    destruct (first_available amb resolver_order); [reflexivity|].
    destruct (MAX_GOOGLE_FAILURES <=? googleFailCount st); reflexivity.
Qed.

Lemma cooldown_resets_before_selection_witness :
  selectSearchProvider Samples.much_later Samples.seven_failures =
  (Normal (default google (first_available Samples.much_later resolver_order)),
   mkState (lastProvider Samples.seven_failures) 0
           (lastGoogleFailure Samples.seven_failures)
           (logged Samples.seven_failures ++ [info_cooldown_reset])
           (invoked Samples.seven_failures)).
Proof.
  apply (proj1 (cooldown_resets_before_selection
                  Samples.much_later Samples.seven_failures)).
  split; [reflexivity | reflexivity].
Defined.

(** C9: the provider [selectSearchProvider] returns depends only on
    which alternatives are configured, on the failure count, on the
    time of the last failure and on the current time: two calls that
    agree on these return the same provider (and leave the same
    failure count), whatever else differs in the environment or in the
    module's state. *)
Theorem select_deterministic amb1 amb2 st1 st2 :
  (forall alt, available amb1 alt = available amb2 alt) ->
  now amb1 = now amb2 ->
  googleFailCount st1 = googleFailCount st2 ->
  lastGoogleFailure st1 = lastGoogleFailure st2 ->
  fst (selectSearchProvider amb1 st1) = fst (selectSearchProvider amb2 st2) /\
  googleFailCount (snd (selectSearchProvider amb1 st1)) =
  googleFailCount (snd (selectSearchProvider amb2 st2)).
Proof.
  intros Hav Hnow Hc Hl.
  rewrite !selectSearchProvider_run. cbv zeta.
  assert (Hfa : first_available amb1 resolver_order
                = first_available amb2 resolver_order).
  { unfold first_available, resolver_order. simpl. now rewrite !Hav. }
  assert (Hcount : googleFailCount (after_cooldown amb1 st1) =
                   googleFailCount (after_cooldown amb2 st2)).
  { unfold after_cooldown, cooled. rewrite Hnow, Hc, Hl.
    destruct (_ && _); simpl; auto. }
  rewrite Hfa, Hcount.
  destruct (first_available amb2 resolver_order); simpl; [auto|].
  destruct (_ <=? _); simpl; auto.
Qed.

Lemma same_flags alt :
  available Samples.with_brave alt = available Samples.with_brave_elsewhere alt.
Proof. destruct alt; reflexivity. Qed.

Lemma select_deterministic_witness :
  fst (selectSearchProvider Samples.with_brave Samples.seven_failures)
  = fst (selectSearchProvider Samples.with_brave_elsewhere
                              Samples.seven_failures_later) /\
  googleFailCount
    (snd (selectSearchProvider Samples.with_brave Samples.seven_failures))
  = googleFailCount
      (snd (selectSearchProvider Samples.with_brave_elsewhere
                                 Samples.seven_failures_later)).
Proof.
  apply select_deterministic; [exact same_flags | reflexivity ..].
Defined.

Example cooldown_forgets_seven_failures :
  selectSearchProvider Samples.much_later Samples.seven_failures
  = (Normal google, mkState "google" 0 0 [info_cooldown_reset] []).
Proof. reflexivity. Qed.

(** A setting that is there but empty counts as absent. *)
Example empty_setting_is_not_configured :
  available Samples.with_empty_serper serper = false /\
  fst (selectSearchProvider Samples.with_empty_serper initial) = Normal google.
Proof. split; reflexivity. Qed.

Example no_alternative_resets_seven_failures :
  selectSearchProvider Samples.bare Samples.seven_failures
  = (Normal google, mkState "google" 0 0 [warn_no_alternatives] []).
Proof. reflexivity. Qed.

End Resolver.

(** ** The orchestrator *)

Section Orchestrator.

Import Search.

Variable respond : Call -> Completion (list SearchResult).
Variables at_select at_failure : Ambient.

Implicit Types (p : Params) (st : State) (error : JsError).

(** The handler looks for the text in a message that is there. *)
Lemma rate_limited_message_iff error :
  rate_limited_message error = true <->
  exists m, message error = Some m /\ JS.includes "Too many requests" m = true.
Proof.
  unfold rate_limited_message. destruct (message error) as [m|].
  - split.
    + intros H. apply andb_true_iff in H as [_ H]. eauto.
    + intros (m' & [= <-] & H). rewrite H, andb_true_r.
      destruct m; [discriminate | reflexivity].
  - split; [discriminate | intros (m & H & _); discriminate].
Qed.

Lemma search_body_alternative p st provider st0 :
  selectSearchProvider at_select st = (Normal provider, st0) ->
  provider <> google ->
  search_body respond at_select at_failure p st =
  (respond (call_for provider p),
   with_call (call_for provider p) (announced provider st0)).
Proof.
  intros Hsel Hne. unfold search_body, mbind, Eff_bind. rewrite Hsel.
  destruct provider; try congruence; reflexivity.
Qed.

Lemma on_google_error_run p error st :
  on_google_error respond at_failure (query p) (default 5 (num_results p))
                  (tbs p) (filter p) (default "en" (lang p))
                  (default "us" (country p)) (location p)
                  (default 5000 (timeout p)) error st =
  if rate_limited_message error then
    match first_available at_failure fallback_order with
    | Some alt =>
        (respond (call_for alt p),
         with_call (call_for alt p)
                   (with_log (info_falling_back alt)
                             (failure_recorded at_failure st)))
    | None => (Thrown error, failure_recorded at_failure st)
    end
  else (Thrown error, st).
Proof.
  unfold on_google_error. destruct (rate_limited_message error); [|reflexivity].
  unfold first_available, fallback_order, available, setting_of.
  cbn [List.filter head]. unfold mbind, Eff_bind. simpl.
  destruct (configured at_failure "BRAVE_SEARCH_API_KEY"); [reflexivity|].
  destruct (configured at_failure "DUCKDUCKGO_ENABLED"); [reflexivity|].
  destruct (configured at_failure "SERPER_API_KEY"); [reflexivity|].
  destruct (configured at_failure "SEARCHAPI_API_KEY"); [reflexivity|].
  destruct (configured at_failure "SEARXNG_ENDPOINT"); reflexivity.
Qed.

Lemma search_body_google p st st0 :
  selectSearchProvider at_select st = (Normal google, st0) ->
  search_body respond at_select at_failure p st =
  let st1 := with_call (call_for google p) (announced google st0) in
  match respond (call_for google p) with
  | Normal found => (Normal found, st1)
  | Thrown error =>
      if rate_limited_message error then
        match first_available at_failure fallback_order with
        | Some alt =>
            (respond (call_for alt p),
             with_call (call_for alt p)
                       (with_log (info_falling_back alt)
                                 (failure_recorded at_failure st1)))
        | None => (Thrown error, failure_recorded at_failure st1)
        end
      else (Thrown error, st1)
  end.
Proof.
  intros Hsel. unfold search_body, mbind, Eff_bind. rewrite Hsel.
  cbv zeta. cbn [set_lastProvider log]. unfold try_catch.
  change (await respond (call_googleSearch _ _ _ _ _ _ _ _ _ _) _)
    with (respond (call_for google p),
          with_call (call_for google p) (announced google st0)).
  destruct (respond (call_for google p)) as [found|error]; [reflexivity|].
  apply on_google_error_run.
Qed.

Lemma search_run p st :
  search respond at_select at_failure p st =
  match search_body respond at_select at_failure p st with
  | (Normal found, st') => (Normal found, st')
  | (Thrown error, st') =>
      (Normal [], with_log (error_in_search (lastProvider st') error) st')
  end.
Proof.
  unfold search, try_catch.
  destruct (search_body respond at_select at_failure p st)
    as [[found|error] st']; reflexivity.
Qed.

(** The body of [search], whatever the provider: it ends with the
    settlement of the last adapter it invoked. *)
Lemma search_body_last_call p st :
  exists c st_b,
    snd (search_body respond at_select at_failure p st) = st_b /\
    last (invoked st_b) = Some c /\
    results_or_empty (fst (search_body respond at_select at_failure p st))
    = results_or_empty (respond c).
Proof.
  destruct (selectSearchProvider_frame at_select st)
    as (provider & st0 & Hsel & _).
  destruct (decide (provider = google)) as [->|Hne].
  - rewrite (search_body_google p st st0 Hsel). cbv zeta.
    generalize (call_for google p) as cg. intros cg.
    destruct (respond cg) as [found|error] eqn:Hg.
    + exists cg. eexists. split; [reflexivity|].
      cbn [fst snd with_call invoked]. rewrite last_snoc, Hg. auto.
    + destruct (rate_limited_message error).
      * destruct (first_available at_failure fallback_order) as [alt|].
        -- exists (call_for alt p). eexists. split; [reflexivity|].
           cbn [fst snd with_call invoked]. rewrite last_snoc. auto.
        -- exists cg. eexists. split; [reflexivity|].
           cbn [fst snd with_call failure_recorded invoked].
           rewrite last_snoc, Hg. auto.
      * exists cg. eexists. split; [reflexivity|].
        cbn [fst snd with_call invoked]. rewrite last_snoc, Hg. auto.
  - rewrite (search_body_alternative p st provider st0 Hsel Hne).
    exists (call_for provider p). eexists. split; [reflexivity|].
    cbn [fst snd with_call invoked]. rewrite last_snoc. auto.
Qed.

(** C1: [search] never throws.  Every execution returns a list: the
    results of its body when the body returns, and the empty list, with
    the error logged, when the body throws.  Either way the list is
    what the last adapter invoked returned, or empty if that adapter
    threw. *)
Theorem search_never_raises p st :
  exists found st' c,
    search respond at_select at_failure p st = (Normal found, st') /\
    (forall error st_b,
        search_body respond at_select at_failure p st = (Thrown error, st_b) ->
        found = [] /\
        logged st' = logged st_b ++ [error_in_search (lastProvider st_b) error]) /\
    (forall results st_b,
        search_body respond at_select at_failure p st = (Normal results, st_b) ->
        found = results /\ st' = st_b) /\
    last (invoked st') = Some c /\
    found = results_or_empty (respond c).
Proof.
  destruct (search_body_last_call p st) as (c & st_b & Hst & Hlast & Hres).
  rewrite search_run.
  destruct (search_body respond at_select at_failure p st)
    as [[results|error] st_b'] eqn:Hbody; simpl in *; subst st_b'.
  - exists results, st_b, c.
    split; [reflexivity|]. split; [intros error st2 [=]|].
    split; [intros results' st2 [= <- <-]; auto|]. auto.
  - exists [], (with_log (error_in_search (lastProvider st_b) error) st_b), c.
    split; [reflexivity|]. split; [intros error' st2 [= <- <-]; auto|].
    split; [intros results st2 [=]|]. auto.
Qed.

(** C3: when the adapter of the resolved provider throws, and either
    the provider is an alternative or it is the primary and the error's
    message does not contain "Too many requests", [search] invokes no
    other adapter and returns the empty list, whatever is configured;
    the failure counters stay as the resolver left them. *)
Theorem no_fallback_on_other_failures p st provider st0 error :
  selectSearchProvider at_select st = (Normal provider, st0) ->
  respond (call_for provider p) = Thrown error ->
  (provider = google -> rate_limited_message error = false) ->
  exists st',
    search respond at_select at_failure p st = (Normal [], st') /\
    invoked st' = invoked st ++ [call_for provider p] /\
    googleFailCount st' = googleFailCount st0 /\
    lastGoogleFailure st' = lastGoogleFailure st0.
Proof.
  intros Hsel Hthrown Hmsg.
  destruct (selectSearchProvider_frame at_select st)
    as (provider' & st0' & Hsel' & _ & _ & Hinv).
  rewrite Hsel in Hsel'. injection Hsel' as <- <-.
  rewrite search_run.
  destruct (decide (provider = google)) as [->|Hne].
  - rewrite (search_body_google p st st0 Hsel). cbv zeta.
    rewrite Hthrown, (Hmsg eq_refl).
    eexists. split; [reflexivity|]. simpl. now rewrite Hinv.
  - rewrite (search_body_alternative p st provider st0 Hsel Hne), Hthrown.
    eexists. split; [reflexivity|]. simpl. now rewrite Hinv.
Qed.

(** C2, as the code has it: when the resolved provider is the primary
    and its adapter throws an error whose message contains
    "Too many requests", [search] adds one to the failure count, sets
    the time of the last failure to the current time, and then invokes
    one alternative at most: the first one configured at that moment in
    the order brave, duckduckgo, serper, searchapi, searxng, with the
    options translated for it.  It returns what that adapter returns,
    and the empty list when that adapter throws or when no alternative
    is configured. *)
Theorem primary_rate_limit_fallback p st st0 error :
  selectSearchProvider at_select st = (Normal google, st0) ->
  respond (call_for google p) = Thrown error ->
  rate_limited_message error = true ->
  exists st',
    search respond at_select at_failure p st =
    (Normal match first_available at_failure fallback_order with
            | Some alt => results_or_empty (respond (call_for alt p))
            | None => []
            end, st') /\
    googleFailCount st' = googleFailCount st0 + 1 /\
    lastGoogleFailure st' = now at_failure /\
    invoked st' =
      invoked st ++ call_for google p ::
        match first_available at_failure fallback_order with
        | Some alt => [call_for alt p]
        | None => []
        end.
Proof.
  intros Hsel Hthrown Hmsg.
  destruct (selectSearchProvider_frame at_select st)
    as (provider' & st0' & Hsel' & _ & _ & Hinv).
  rewrite Hsel in Hsel'. injection Hsel' as <- <-.
  rewrite search_run, (search_body_google p st st0 Hsel). cbv zeta.
  rewrite Hthrown, Hmsg.
  destruct (first_available at_failure fallback_order) as [alt|].
  - destruct (respond (call_for alt p)) as [found|error'];
      (eexists; split; [reflexivity|]); simpl;
      rewrite Hinv, <- app_assoc; auto.
  - eexists; split; [reflexivity|]. simpl. now rewrite Hinv.
Qed.

(** As long as the settings do not change while [googleSearch] is
    awaited, the handler finds no alternative: the primary is only ever
    resolved when none is configured. *)
Lemma fallback_needs_changed_settings st st0 :
  selectSearchProvider at_select st = (Normal google, st0) ->
  env at_failure = env at_select ->
  first_available at_failure fallback_order = None.
Proof.
  intros Hsel Henv. apply first_available_none. intros alt _.
  assert (Hsame : available at_failure alt = available at_select alt).
  { unfold available, configured. now rewrite Henv. }
  rewrite Hsame. exact (select_google_no_alternative _ _ _ Hsel alt).
Qed.

End Orchestrator.

Lemma no_fallback_on_other_failures_witness :
  exists st',
    Search.search Samples.google_unreachable Samples.bare
                  Samples.with_serper_and_brave Samples.plain_query
                  Search.initial
    = (Normal [], st') /\
    Search.invoked st' =
      Search.invoked Search.initial
      ++ [Search.call_for Search.google Samples.plain_query] /\
    Search.googleFailCount st' = Search.googleFailCount Search.initial /\
    Search.lastGoogleFailure st' = Search.lastGoogleFailure Search.initial.
Proof.
  apply (no_fallback_on_other_failures
           Samples.google_unreachable Samples.bare Samples.with_serper_and_brave
           Samples.plain_query Search.initial Search.google Search.initial
           (new_Error "connect ECONNREFUSED"));
    [reflexivity | reflexivity | intros _; reflexivity].
Defined.

Lemma primary_rate_limit_fallback_witness :
  exists st',
    Search.search Samples.google_limited_brave_down Samples.bare
                  Samples.with_serper_and_brave Samples.plain_query
                  Search.initial
    = (Normal match Search.first_available Samples.with_serper_and_brave
                                           Search.fallback_order with
              | Some alt =>
                  Search.results_or_empty
                    (Samples.google_limited_brave_down
                       (Search.call_for alt Samples.plain_query))
              | None => []
              end, st') /\
    Search.googleFailCount st' = Search.googleFailCount Search.initial + 1 /\
    Search.lastGoogleFailure st' = Search.now Samples.with_serper_and_brave /\
    Search.invoked st' =
      Search.invoked Search.initial
      ++ Search.call_for Search.google Samples.plain_query ::
         match Search.first_available Samples.with_serper_and_brave
                                      Search.fallback_order with
         | Some alt => [Search.call_for alt Samples.plain_query]
         | None => []
         end.
Proof.
  apply (primary_rate_limit_fallback
           Samples.google_limited_brave_down Samples.bare
           Samples.with_serper_and_brave Samples.plain_query Search.initial
           Search.initial (new_Error "Too many requests"));
    reflexivity.
Defined.

(** C2, as the specification words it, fails: with the Serper and the
    Brave keys present when the primary's rate-limit error is handled,
    a failing Brave and a working Serper, the walk in the resolver's
    order would return Serper's results, while [search] invokes Brave
    only and returns the empty list. *)
Lemma fallback_walk_counterexample :
  fst (Search.selectSearchProvider Samples.bare Search.initial)
  = Normal Search.google /\
  Samples.google_limited_brave_down
    (Search.call_for Search.google Samples.plain_query)
  = Thrown (new_Error "Too many requests") /\
  Search.rate_limited_message (new_Error "Too many requests") = true /\
  Search.spec_fallback_walk Samples.google_limited_brave_down
                            Samples.with_serper_and_brave
                            Search.resolver_order Samples.plain_query
  = [Samples.hit] /\
  fst (Search.search Samples.google_limited_brave_down Samples.bare
                     Samples.with_serper_and_brave Samples.plain_query
                     Search.initial)
  = Normal [] /\
  Search.invoked
    (snd (Search.search Samples.google_limited_brave_down Samples.bare
                        Samples.with_serper_and_brave Samples.plain_query
                        Search.initial))
  = [Search.call_for Search.google Samples.plain_query;
     Search.call_for Search.brave Samples.plain_query].
Proof. repeat split; reflexivity. Qed.

Example fallback_succeeds_when_a_key_appeared :
  Search.search Samples.google_limited Samples.bare Samples.with_brave
                Samples.plain_query Search.initial
  = (Normal [Samples.hit],
     Search.mkState "google" 1 2000
       [Search.info_using_provider "google";
        Search.warn_google_rate_limited 1;
        Search.info_falling_back Search.brave]
       [Search.call_for Search.google Samples.plain_query;
        Search.call_for Search.brave Samples.plain_query]).
Proof. reflexivity. Qed.

Example no_fallback_with_the_same_settings :
  Search.search Samples.google_limited Samples.bare Samples.bare
                Samples.plain_query Search.initial
  = (Normal [],
     Search.mkState "google" 1 1000
       [Search.info_using_provider "google";
        Search.warn_google_rate_limited 1;
        Search.error_in_search "google" (new_Error "Too many requests")]
       [Search.call_for Search.google Samples.plain_query]).
Proof. reflexivity. Qed.

Example fallback_to_first_in_fallback_order :
  Search.first_available Samples.with_serper_and_brave Search.fallback_order
  = Some Search.brave /\
  Search.first_available Samples.with_serper_and_brave Search.resolver_order
  = Some Search.serper.
Proof. split; reflexivity. Qed.

(** ** The retry loops of the adapters *)

Section Retry.

Lemma flat_map_seq_shift {A} (f : nat -> list A) n : forall start,
  flat_map f (seq (S start) n) = flat_map (fun k => f (S k)) (seq start n).
Proof.
  induction n as [|n IH]; intros start; simpl; [reflexivity|].
  now rewrite IH.
Qed.

Lemma retries_S rc n :
  retries rc (S n) =
  request_sent :: waited_for (baseRetryDelay * 2 ^ rc) :: retries (rc + 1) n.
Proof.
  unfold retries. cbn [seq flat_map app]. rewrite Z.add_0_r. do 2 f_equal.
  rewrite flat_map_seq_shift. apply flat_map_ext. intros k.
  replace (rc + Z.of_nat (S k)) with (rc + 1 + Z.of_nat k) by lia.
  reflexivity.
Qed.

(** The delays are 1000, 2000 and 4000 milliseconds, each before the
    next request. *)
Lemma retries_from_zero n :
  (n <= 3)%nat -> retries 0 n ++ [request_sent] = take (2 * n + 1) schedule.
Proof.
  intros H. destruct n as [|[|[|[|n]]]]; try reflexivity. lia.
Qed.

Lemma requests_schedule o n :
  (n <= 3)%nat -> requests (mkRun o (take (2 * n + 1) schedule)) = S n.
Proof.
  intros H. destruct n as [|[|[|[|n]]]]; try reflexivity. lia.
Qed.

(** Among the first four answers, the rate-limited ones that come
    before the first other answer. *)
Lemma leading_rate_limits (limited : nat -> bool) :
  exists n, (n <= 3)%nat /\
            (forall i, (i < n)%nat -> limited i = true) /\
            ((n < 3)%nat -> limited n = false).
Proof.
  destruct (limited 0%nat) eqn:H0; [|exists 0%nat; repeat split; auto; lia].
  destruct (limited 1%nat) eqn:H1.
  2:{ exists 1%nat. repeat split; auto.
      intros i Hi. now replace i with 0%nat by lia. }
  destruct (limited 2%nat) eqn:H2.
  2:{ exists 2%nat. repeat split; auto.
      intros [|[|i]] Hi; auto; lia. }
  exists 3%nat. repeat split; auto; [|lia].
  intros [|[|[|i]]] Hi; auto; lia.
Qed.

Lemma brave_try_body_rate_limited settled :
  rate_limited_answer (Brave.try_body settled) = rate_limited_answer settled.
Proof.
  destruct settled as [data|e]; simpl; [|reflexivity].
  now destruct (Brave.web_results data).
Qed.

Lemma fold_push_topic_thrown n ts e :
  fold_left (DuckDuckGo.push_topic n) ts (Thrown e) = Thrown e.
Proof. induction ts; simpl; auto. Qed.

(** What processing an answer throws carries no HTTP status. *)
Lemma add_topics_not_rate_limited n ts : forall acc e,
  fold_left (DuckDuckGo.push_topic n) ts (Normal acc) = Thrown e ->
  rate_limited_status e = false.
Proof.
  induction ts as [|t ts IH]; intros acc e; cbn [fold_left]; [discriminate|].
  unfold DuckDuckGo.push_topic at 2.
  destruct (DuckDuckGo.Topics t); [apply IH|].
  destruct (_ && _); [|apply IH].
  destruct (DuckDuckGo.Text t); [apply IH|].
  rewrite fold_push_topic_thrown. now intros [= <-].
Qed.

Lemma ddg_try_body_rate_limited n settled :
  rate_limited_answer (DuckDuckGo.try_body n settled)
  = rate_limited_answer settled.
Proof.
  destruct settled as [data|e]; simpl; [|reflexivity].
  destruct (DuckDuckGo.add_topics _ _ _) as [found|e] eqn:H; [reflexivity|].
  unfold DuckDuckGo.add_topics in H.
  destruct (DuckDuckGo.RelatedTopics data) as [ts|]; [|discriminate].
  simpl. now apply add_topics_not_rate_limited in H.
Qed.

(** Both loops are proved the same way: by induction on the number of
    rate-limited answers still to come, running one iteration on the
    answer at hand.  [rate_limited_lemma] says that the [try] block
    lets a rate-limited answer through as it is. *)
Ltac retry_loop_induction rate_limited_lemma :=
  intros n; induction n as [|n IH];
  intros fuel rc w sent H0 H3 Hfuel Hretry Hlast;
  (destruct fuel as [|fuel]; [lia|]);
  cbn [Brave.retry_loop DuckDuckGo.retry_loop];
  unfold maxRetries in *;
  (destruct (rc <=? 3) eqn:Hle; [|apply Z.leb_gt in Hle; lia]);
  [ rewrite Nat.add_0_r in *; cbn [retries seq flat_map app];
    match goal with
    | |- context [match ?t with Normal _ => _ | Thrown _ => _ end] =>
        destruct t as [found|e] eqn:Hb;
        [ reflexivity
        | destruct (rate_limited_status e && (rc <? 3)) eqn:Hc;
          [ apply andb_true_iff in Hc as [Hs Hlt]; apply Z.ltb_lt in Hlt;
            specialize (Hlast ltac:(lia));
            rewrite <- rate_limited_lemma, Hb in Hlast; simpl in Hlast;
            congruence
          | reflexivity ] ]
    end
  | pose proof (Hretry O ltac:(lia)) as Hfirst;
    rewrite Nat.add_0_r, <- rate_limited_lemma in Hfirst;
    match goal with
    | |- context [match ?t with Normal _ => _ | Thrown _ => _ end] =>
        destruct t as [found|e]
    end; [discriminate|];
    simpl in Hfirst; rewrite Hfirst;
    (destruct (rc <? 3) eqn:Hlt; [|apply Z.ltb_ge in Hlt; lia]);
    cbn [andb]; cbv zeta;
    rewrite (IH fuel (rc + 1)
                ((w ++ [request_sent])
                 ++ [waited_for (baseRetryDelay * 2 ^ rc)]) (S sent));
    [ rewrite retries_S, <- !app_assoc; simpl;
      rewrite !Nat.add_succ_r; reflexivity
    | lia | lia | lia
    | intros i Hi; replace (S sent + i)%nat with (sent + S i)%nat by lia;
      apply Hretry; lia
    | intros Hlt'; replace (S sent + n)%nat with (sent + S n)%nat by lia;
      apply Hlast; lia ] ].

Section BraveLoop.

Variable backend : Brave.Request -> nat -> Completion Brave.Data.
Variable req : Brave.Request.

Lemma brave_retry_loop_run : forall n fuel rc w sent,
  0 <= rc -> rc + Z.of_nat n <= maxRetries -> (n < fuel)%nat ->
  (forall i, (i < n)%nat ->
             rate_limited_answer (backend req (sent + i)%nat) = true) ->
  (rc + Z.of_nat n < maxRetries ->
   rate_limited_answer (backend req (sent + n)%nat) = false) ->
  Brave.retry_loop backend fuel req rc w sent =
  Some (mkRun (wrap_error "Brave Search API error: "
                          (Brave.try_body (backend req (sent + n)%nat)))
              (w ++ retries rc n ++ [request_sent])).
Proof. retry_loop_induction brave_try_body_rate_limited. Qed.

End BraveLoop.

Section DuckDuckGoLoop.

Variable backend : DuckDuckGo.Request -> nat -> Completion DuckDuckGo.Data.
Variable req : DuckDuckGo.Request.
Variable limit : Z.

Lemma ddg_retry_loop_run : forall n fuel rc w sent,
  0 <= rc -> rc + Z.of_nat n <= maxRetries -> (n < fuel)%nat ->
  (forall i, (i < n)%nat ->
             rate_limited_answer (backend req (sent + i)%nat) = true) ->
  (rc + Z.of_nat n < maxRetries ->
   rate_limited_answer (backend req (sent + n)%nat) = false) ->
  DuckDuckGo.retry_loop backend fuel req limit rc w sent =
  Some (mkRun (wrap_error "DuckDuckGo search error: "
                 (DuckDuckGo.try_body limit (backend req (sent + n)%nat)))
              (w ++ retries rc n ++ [request_sent])).
Proof. retry_loop_induction (ddg_try_body_rate_limited limit). Qed.

End DuckDuckGoLoop.

(** [braveSearch] with its key set. *)
Lemma braveSearch_retries
      (backend : Brave.Request -> nat -> Completion Brave.Data)
      (env : gmap string string) key query options fuel n :
  env !! "BRAVE_SEARCH_API_KEY" = Some key -> key <> "" ->
  (4 <= fuel)%nat -> (n <= 3)%nat ->
  (forall i, (i < n)%nat ->
     rate_limited_answer (backend (Brave.request_of key query options) i) = true) ->
  ((n < 3)%nat ->
   rate_limited_answer (backend (Brave.request_of key query options) n) = false) ->
  Brave.braveSearch backend fuel env query options =
  Some (mkRun (wrap_error "Brave Search API error: "
                 (Brave.try_body (backend (Brave.request_of key query options) n)))
              (take (2 * n + 1) schedule)).
Proof.
  intros Hkey Hne Hfuel Hn Hretry Hlast. unfold Brave.braveSearch.
  rewrite Hkey. destruct key as [|c k]; [congruence|]. cbv zeta.
  change (Brave.mkRequest _ _ _ _ _ _)
    with (Brave.request_of (String c k) query options).
  rewrite (brave_retry_loop_run backend _ n); unfold maxRetries; try lia.
  - now rewrite app_nil_l, retries_from_zero.
  - exact Hretry.
  - intros H. apply Hlast. lia.
Qed.

Lemma duckduckgoSearch_retries
      (backend : DuckDuckGo.Request -> nat -> Completion DuckDuckGo.Data)
      query options fuel n :
  (4 <= fuel)%nat -> (n <= 3)%nat ->
  (forall i, (i < n)%nat ->
     rate_limited_answer (backend (DuckDuckGo.request_of query options) i) = true) ->
  ((n < 3)%nat ->
   rate_limited_answer (backend (DuckDuckGo.request_of query options) n) = false) ->
  DuckDuckGo.duckduckgoSearch backend fuel query options =
  Some (mkRun (wrap_error "DuckDuckGo search error: "
                 (DuckDuckGo.try_body (DuckDuckGo.limit_of options)
                    (backend (DuckDuckGo.request_of query options) n)))
              (take (2 * n + 1) schedule)).
Proof.
  intros Hfuel Hn Hretry Hlast. unfold DuckDuckGo.duckduckgoSearch. cbv zeta.
  change (DuckDuckGo.mkRequest _ _ _)
    with (DuckDuckGo.request_of query options).
  change (default 10 (DuckDuckGo.num_results options))
    with (DuckDuckGo.limit_of options).
  rewrite (ddg_retry_loop_run backend _ _ n); unfold maxRetries; try lia.
  - now rewrite app_nil_l, retries_from_zero.
  - exact Hretry.
  - intros H. apply Hlast. lia.
Qed.

(** Both adapters return, whatever the backend does: with fuel for
    four iterations the loop has settled. *)
Lemma braveSearch_total
      (backend : Brave.Request -> nat -> Completion Brave.Data)
      (env : gmap string string) query options fuel :
  (4 <= fuel)%nat ->
  exists run, Brave.braveSearch backend fuel env query options = Some run /\
              (requests run <= 4)%nat.
Proof.
  intros Hfuel.
  destruct (env !! "BRAVE_SEARCH_API_KEY") as [[|c k]|] eqn:Hkey;
    try (unfold Brave.braveSearch; rewrite Hkey; eexists; split;
         [reflexivity | unfold requests; simpl; lia]).
  destruct (leading_rate_limits
              (fun i => rate_limited_answer
                          (backend (Brave.request_of (String c k) query options) i)))
    as (n & Hn & Hretry & Hlast).
  eexists. split.
  - apply (braveSearch_retries backend env (String c k) query options fuel n);
      auto; discriminate.
  - rewrite requests_schedule by exact Hn. lia.
Qed.

Lemma duckduckgoSearch_total
      (backend : DuckDuckGo.Request -> nat -> Completion DuckDuckGo.Data)
      query options fuel :
  (4 <= fuel)%nat ->
  exists n,
    (n <= 3)%nat /\
    DuckDuckGo.duckduckgoSearch backend fuel query options =
    Some (mkRun (wrap_error "DuckDuckGo search error: "
                   (DuckDuckGo.try_body (DuckDuckGo.limit_of options)
                      (backend (DuckDuckGo.request_of query options) n)))
                (take (2 * n + 1) schedule)).
Proof.
  intros Hfuel.
  destruct (leading_rate_limits
              (fun i => rate_limited_answer
                          (backend (DuckDuckGo.request_of query options) i)))
    as (n & Hn & Hretry & Hlast).
  exists n. split; [exact Hn|].
  now apply duckduckgoSearch_retries.
Qed.

(** C7: in both adapters, as long as the backend answers 429 or 503 the
    request is sent again, three times at most, after a wait of 1000
    milliseconds before the second request, 2000 before the third and
    4000 before the fourth.  The answer that ends the loop is the first
    one that is not a 429 or 503, or the fourth answer whatever it is:
    when it is an error, the adapter throws an [Error] whose message is
    the adapter's prefix followed by the error's message, and sends
    nothing more; when it is a response, the adapter returns what the
    [try] block makes of it.  In particular ([n = 0]) an error other
    than 429 and 503 on the first request is thrown after that single
    request, and ([n = 3]) three 429 followed by a response give the
    results of that response after the three waits. *)
Theorem shared_retry_policy :
  (forall (backend : Brave.Request -> nat -> Completion Brave.Data)
          (env : gmap string string) key query options fuel n,
      env !! "BRAVE_SEARCH_API_KEY" = Some key -> key <> "" ->
      (4 <= fuel)%nat -> (n <= 3)%nat ->
      (forall i, (i < n)%nat ->
         rate_limited_answer
           (backend (Brave.request_of key query options) i) = true) ->
      ((n < 3)%nat ->
       rate_limited_answer
         (backend (Brave.request_of key query options) n) = false) ->
      Brave.braveSearch backend fuel env query options =
      Some (mkRun (wrap_error "Brave Search API error: "
                     (Brave.try_body
                        (backend (Brave.request_of key query options) n)))
                  (take (2 * n + 1) schedule)))
  /\
  (forall (backend : DuckDuckGo.Request -> nat -> Completion DuckDuckGo.Data)
          query options fuel n,
      (4 <= fuel)%nat -> (n <= 3)%nat ->
      (forall i, (i < n)%nat ->
         rate_limited_answer
           (backend (DuckDuckGo.request_of query options) i) = true) ->
      ((n < 3)%nat ->
       rate_limited_answer
         (backend (DuckDuckGo.request_of query options) n) = false) ->
      DuckDuckGo.duckduckgoSearch backend fuel query options =
      Some (mkRun (wrap_error "DuckDuckGo search error: "
                     (DuckDuckGo.try_body (DuckDuckGo.limit_of options)
                        (backend (DuckDuckGo.request_of query options) n)))
                  (take (2 * n + 1) schedule))).
Proof.
  split.
  - exact braveSearch_retries.
  - exact duckduckgoSearch_retries.
Qed.

Lemma thrice_limited (limited : nat -> bool) :
  limited 0%nat = true -> limited 1%nat = true -> limited 2%nat = true ->
  forall i, (i < 3)%nat -> limited i = true.
Proof. intros H0 H1 H2 [|[|[|i]]] Hi; auto; lia. Qed.

Lemma shared_retry_policy_witness :
  Brave.braveSearch Samples.brave_limited_thrice 4
                    (Search.env Samples.with_brave) "rocq" Samples.brave_options
  = Some (mkRun (Normal [Samples.hit]) schedule)
  /\
  DuckDuckGo.duckduckgoSearch Samples.ddg_limited_thrice 4 "rocq"
                              Samples.ddg_options
  = Some (mkRun
            (Normal [mkSearchResult (Some "https://rocq-prover.org/")
                                    (Some "Rocq")
                                    (Some "Rocq is a proof assistant.");
                     mkSearchResult (Some "https://rocq-prover.org/doc")
                                    (Some "Documentation") (Some "Documentation");
                     mkSearchResult (Some "https://rocq-prover.org/install")
                                    (Some "Install") (Some "Install");
                     mkSearchResult (Some "https://duckduckgo.com/Proof_assistant")
                                    (Some "Proof assistant - Software for formal proofs - Category")
                                    (Some "Software for formal proofs")])
            schedule).
Proof.
  split.
  - apply (proj1 shared_retry_policy Samples.brave_limited_thrice
                 (Search.env Samples.with_brave) "brave-key" "rocq"
                 Samples.brave_options 4%nat 3%nat);
      [reflexivity | discriminate | lia | lia | | lia].
    apply (thrice_limited
             (fun i => rate_limited_answer (Samples.brave_limited_thrice _ i)));
      reflexivity.
  - apply (proj2 shared_retry_policy Samples.ddg_limited_thrice "rocq"
                 Samples.ddg_options 4%nat 3%nat);
      [lia | lia | | lia].
    apply (thrice_limited
             (fun i => rate_limited_answer (Samples.ddg_limited_thrice _ i)));
      reflexivity.
Defined.

Example brave_gives_up_after_four :
  Brave.braveSearch (fun _ _ => Thrown Samples.http_429) 4
                    (Search.env Samples.with_brave) "rocq" Samples.brave_options
  = Some (mkRun
            (Thrown (new_Error "Brave Search API error: Request failed with status code 429"))
            schedule).
Proof. reflexivity. Qed.

Example duckduckgo_fails_at_once :
  DuckDuckGo.duckduckgoSearch
    (fun _ _ => Thrown (mkError (Some "Request failed with status code 500")
                                (Some 500)))
    4 "rocq" Samples.ddg_options
  = Some (mkRun
            (Thrown (new_Error "DuckDuckGo search error: Request failed with status code 500"))
            [request_sent]).
Proof. reflexivity. Qed.

Example brave_without_key :
  Brave.braveSearch Samples.brave_limited_thrice 4 ∅ "rocq" Samples.brave_options
  = Some (mkRun (Thrown (new_Error "Brave Search API key not configured")) []).
Proof. reflexivity. Qed.

End Retry.

(** ** What [duckduckgoSearch] makes of an answer *)

Section DuckDuckGoAnswer.

Import DuckDuckGo.

Implicit Types (data : Data) (t : Topic) (out acc : list SearchResult).

Lemma below_limit (n : Z) (len : nat) :
  (Z.of_nat len <? n) = true <-> (len < Z.to_nat n)%nat.
Proof. rewrite Z.ltb_lt. lia. Qed.

Lemma push_within_limit {A} k (l : list A) x (acc : list A) :
  (length acc < k)%nat ->
  (acc ++ [x]) ++ take (k - length (acc ++ [x])) l
  = acc ++ take (k - length acc) (x :: l).
Proof.
  intros H. rewrite length_app. simpl.
  replace (k - length acc)%nat with (S (k - (length acc + 1)))%nat by lia.
  simpl. now rewrite <- app_assoc.
Qed.

Lemma push_beyond_limit {A} (n : Z) (l : list A) (acc : list A) :
  (Z.of_nat (length acc) <? n) = false ->
  take (Z.to_nat n - length acc) l = [].
Proof.
  intros H. apply Z.ltb_ge in H.
  replace (Z.to_nat n - length acc)%nat with O by lia. reflexivity.
Qed.

(** [Results.forEach]: the entries are appended while there is room. *)
Lemma add_results_fold n rs : forall acc,
  fold_left (push_result n) rs acc =
  acc ++ take (Z.to_nat n - length acc) (map result_entry rs).
Proof.
  induction rs as [|r rs IH]; intros acc; simpl.
  - now rewrite take_nil, app_nil_r.
  - rewrite IH. unfold push_result.
    destruct (Z.of_nat (length acc) <? n) eqn:Hlt.
    + apply below_limit in Hlt. now apply push_within_limit.
    + now rewrite (push_beyond_limit n (_ :: _)), (push_beyond_limit n).
Qed.

Lemma push_topic_cases n acc t :
  push_topic n (Normal acc) t =
  if eligible t && (Z.of_nat (length acc) <? n) then
    match Text t with
    | Some _ => Normal (acc ++ [topic_entry t])
    | None => Thrown TypeError_split
    end
  else Normal acc.
Proof.
  unfold push_topic, eligible, topic_entry, topic_description.
  destruct (Topics t); [reflexivity|].
  rewrite (andb_comm (JS.truthy _)).
  destruct (_ && _); [|reflexivity]. now destruct (Text t).
Qed.

(** [RelatedTopics.forEach], when it does not throw: the entries of the
    eligible topics are appended while there is room. *)
Lemma add_topics_fold n ts : forall acc out,
  fold_left (push_topic n) ts (Normal acc) = Normal out ->
  out = acc ++ take (Z.to_nat n - length acc)
                    (map topic_entry (List.filter eligible ts)).
Proof.
  induction ts as [|t ts IH]; intros acc out; cbn [fold_left List.filter].
  - intros [= <-]. simpl. now rewrite take_nil, app_nil_r.
  - rewrite push_topic_cases. destruct (eligible t) eqn:He; cbn [andb map].
    + destruct (Z.of_nat (length acc) <? n) eqn:Hlt.
      * destruct (Text t); [|now rewrite fold_push_topic_thrown].
        intros H. apply IH in H. rewrite H.
        apply below_limit in Hlt. now apply push_within_limit.
      * intros H. apply IH in H. rewrite H.
        now rewrite (push_beyond_limit n (_ :: _)), (push_beyond_limit n).
    + apply IH.
Qed.


Lemma take_app_take {A} k (x y : list A) :
  take k (x ++ take (k - length x) y) = take k (x ++ y).
Proof. rewrite !take_app, take_take. f_equal. f_equal. lia. Qed.

Lemma add_abstract_length data : (length (add_abstract data []) <= 1)%nat.
Proof. unfold add_abstract. destruct (_ && _); simpl; lia. Qed.

(** The final [slice] makes up for the abstract being pushed without a
    look at the limit. *)
Lemma slice_merged n (a r t : list SearchResult) :
  (length a <= 1)%nat ->
  let r' := a ++ take (Z.to_nat n - length a) r in
  JS.slice0 (r' ++ take (Z.to_nat n - length r') t) n
  = take (Z.to_nat n) (a ++ r ++ t).
Proof.
  intros Ha r'. unfold JS.slice0. destruct (n <? 0) eqn:Hneg.
  - apply Z.ltb_lt in Hneg. subst r'.
    replace (Z.to_nat n) with O by lia. simpl. rewrite !take_0, !app_nil_r.
    replace (Z.to_nat (Z.max 0 (Z.of_nat (length a) + n))) with O by lia.
    reflexivity.
  - rewrite take_app_take. subst r'.
    rewrite (app_assoc a r t).
    rewrite (take_app (a ++ take _ r) t), (take_app (a ++ r) t).
    rewrite take_app_take. f_equal.
    rewrite !length_app, length_take.
    destruct (decide (Z.to_nat n - length a <= length r)%nat).
    + replace (Z.to_nat n - (length a + (Z.to_nat n - length a) `min` length r))%nat
        with O by lia.
      replace (Z.to_nat n - (length a + length r))%nat with O by lia.
      reflexivity.
    + f_equal. lia.
Qed.

(** Whatever the [try] block returns is the merged list, cut at the
    limit. *)
Lemma try_body_merged n data out :
  try_body n (Normal data) = Normal out ->
  out = take (Z.to_nat n) (merged data).
Proof.
  unfold try_body, add_topics, add_results, merged.
  pose proof (add_abstract_length data) as Ha.
  set (a := add_abstract data []) in *.
  destruct (Results data) as [rs|]; destruct (RelatedTopics data) as [ts|];
    simpl.
  - rewrite add_results_fold.
    destruct (fold_left _ ts _) as [found|e] eqn:Hf; [|discriminate].
    apply add_topics_fold in Hf. intros [= <-]. subst found.
    now apply slice_merged.
  - rewrite add_results_fold. intros [= <-].
    pose proof (slice_merged n a (map result_entry rs) [] Ha) as H.
    simpl in H. rewrite take_nil, !app_nil_r in H. now rewrite app_nil_r.
  - destruct (fold_left _ ts _) as [found|e] eqn:Hf; [|discriminate].
    apply add_topics_fold in Hf. intros [= <-]. subst found.
    pose proof (slice_merged n a []
                  (map topic_entry (List.filter eligible ts)) Ha) as H.
    simpl in H. rewrite take_nil, !app_nil_r in H. exact H.
  - intros [= <-].
    pose proof (slice_merged n a [] [] Ha) as H. simpl in H.
    rewrite !take_nil, !app_nil_r in H. now rewrite app_nil_r.
Qed.



(** The description of a topic, without [split]. *)
Lemma topic_description_pieces text :
  topic_description text = Some (second_piece_or_text text).
Proof.
  unfold topic_description, second_piece_or_text.
  rewrite split_cut by discriminate.
  destruct (JS.cut " - " text) as [[before rest]|]; [|reflexivity].
  rewrite split_cut by discriminate.
  destruct (JS.cut " - " rest) as [[piece after]|]; simpl.
  - now destruct piece.
  - now destruct rest.
Qed.


(** What the adapter returns comes from the last answer it received. *)
Lemma duckduckgoSearch_answer
      (backend : Request -> nat -> Completion Data) query options fuel run out :
  (4 <= fuel)%nat ->
  duckduckgoSearch backend fuel query options = Some run ->
  outcome run = Normal out ->
  exists data,
    backend (request_of query options) (Nat.pred (requests run)) = Normal data /\
    try_body (limit_of options) (Normal data) = Normal out.
Proof.
  intros Hfuel Hrun Hout.
  destruct (duckduckgoSearch_total backend query options fuel Hfuel)
    as (n & Hn & Heq).
  rewrite Heq in Hrun. injection Hrun as <-.
  change (n + (n + 0))%nat with (2 * n)%nat in *.
  rewrite requests_schedule by assumption.
  cbn [outcome Nat.pred] in *.
  destruct (backend (request_of query options) n) as [data|e] eqn:Hb.
  - exists data. split; [reflexivity|].
    destruct (try_body (limit_of options) (Normal data)); simpl in Hout;
      congruence.
  - simpl in Hout. discriminate.
Qed.

Lemma in_take {A} (x : A) k (l : list A) : In x (take k l) -> In x l.
Proof.
  intros H. rewrite <- (take_drop k l). apply in_or_app. now left.
Qed.

(** Where an entry of the merged list comes from. *)
Lemma merged_provenance data r :
  In r (merged data) ->
  (JS.truthy (AbstractURL data) = true /\
   JS.truthy (AbstractText data) = true /\
   url r = AbstractURL data /\ description r = AbstractText data)
  \/ (exists res, In res (default [] (Results data)) /\ r = result_entry res)
  \/ (exists t, In t (default [] (RelatedTopics data)) /\
                Topics t = None /\ JS.truthy (FirstURL t) = true /\
                r = topic_entry t).
Proof.
  unfold merged. intros H.
  apply in_app_or in H as [H|H]; [|apply in_app_or in H as [H|H]].
  - left. unfold add_abstract in H.
    destruct (JS.truthy (AbstractURL data)) eqn:Hu;
      destruct (JS.truthy (AbstractText data)) eqn:Ht; simpl in H;
      try contradiction.
    destruct H as [<-|[]]. auto.
  - right. left. apply in_map_iff in H as (res & <- & Hin). eauto.
  - right. right. apply in_map_iff in H as (t & <- & Hin).
    apply filter_In in Hin as [Hin He]. exists t.
    unfold eligible in He. destruct (Topics t); [discriminate|]. auto.
Qed.

End DuckDuckGoAnswer.





Example all_sections_when_there_is_room :
  DuckDuckGo.try_body 5 (Normal Samples.ddg_answer)
  = Normal [mkSearchResult (Some "https://rocq-prover.org/") (Some "Rocq")
                           (Some "Rocq is a proof assistant.");
            mkSearchResult (Some "https://rocq-prover.org/doc")
                           (Some "Documentation") (Some "Documentation");
            mkSearchResult (Some "https://rocq-prover.org/install")
                           (Some "Install") (Some "Install");
            mkSearchResult (Some "https://duckduckgo.com/Proof_assistant")
                           (Some "Proof assistant - Software for formal proofs - Category")
                           (Some "Software for formal proofs")].
Proof. reflexivity. Qed.

Example trailing_separator_keeps_the_text :
  DuckDuckGo.topic_description "A - " = Some "A - ".
Proof. reflexivity. Qed.

Example topic_without_text_throws :
  DuckDuckGo.duckduckgoSearch
    (Samples.ddg_answers Samples.ddg_topic_without_text) 4 "rocq"
    Samples.ddg_options
  = Some (mkRun
            (Thrown (new_Error "DuckDuckGo search error: Cannot read properties of undefined (reading 'split')"))
            [request_sent]).
Proof. reflexivity. Qed.

(** C10, as the code has it: a related topic without a [FirstURL] is
    left out even when it is not a category, and the abstract entry is
    there only when [AbstractURL] and [AbstractText] are both present
    and not empty; so every entry returned that comes from the abstract
    or from a related topic carries a non-empty URL of the backend's
    answer.  An entry that comes from the results list carries the
    [FirstURL] of its result as it is; all entries carry a URL when
    every result has one. *)
Theorem duckduckgo_urls_from_backend
        (backend : DuckDuckGo.Request -> nat -> Completion DuckDuckGo.Data)
        query options fuel run out :
  (4 <= fuel)%nat ->
  DuckDuckGo.duckduckgoSearch backend fuel query options = Some run ->
  outcome run = Normal out ->
  exists data,
    backend (DuckDuckGo.request_of query options) (Nat.pred (requests run))
    = Normal data /\
    out = take (Z.to_nat (DuckDuckGo.limit_of options)) (DuckDuckGo.merged data) /\
    (forall t, JS.truthy (DuckDuckGo.FirstURL t) = false ->
               DuckDuckGo.eligible t = false) /\
    (forall r, In r out ->
       (JS.truthy (DuckDuckGo.AbstractURL data) = true /\
        JS.truthy (DuckDuckGo.AbstractText data) = true /\
        url r = DuckDuckGo.AbstractURL data /\
        description r = DuckDuckGo.AbstractText data)
       \/ (exists res, In res (default [] (DuckDuckGo.Results data)) /\
                       url r = DuckDuckGo.result_FirstURL res /\
                       r = DuckDuckGo.result_entry res)
       \/ (exists t, In t (default [] (DuckDuckGo.RelatedTopics data)) /\
                     DuckDuckGo.Topics t = None /\
                     JS.truthy (DuckDuckGo.FirstURL t) = true /\
                     url r = DuckDuckGo.FirstURL t /\
                     r = DuckDuckGo.topic_entry t)) /\
    ((forall res, In res (default [] (DuckDuckGo.Results data)) ->
                  JS.truthy (DuckDuckGo.result_FirstURL res) = true) ->
     forall r, In r out -> JS.truthy (url r) = true).
Proof.
  intros Hfuel Hrun Hout.
  destruct (duckduckgoSearch_answer backend query options fuel run out
                                    Hfuel Hrun Hout) as (data & Hb & Hbody).
  apply try_body_merged in Hbody.
  assert (Hfrom : forall r, In r out ->
       (JS.truthy (DuckDuckGo.AbstractURL data) = true /\
        JS.truthy (DuckDuckGo.AbstractText data) = true /\
        url r = DuckDuckGo.AbstractURL data /\
        description r = DuckDuckGo.AbstractText data)
       \/ (exists res, In res (default [] (DuckDuckGo.Results data)) /\
                       url r = DuckDuckGo.result_FirstURL res /\
                       r = DuckDuckGo.result_entry res)
       \/ (exists t, In t (default [] (DuckDuckGo.RelatedTopics data)) /\
                     DuckDuckGo.Topics t = None /\
                     JS.truthy (DuckDuckGo.FirstURL t) = true /\
                     url r = DuckDuckGo.FirstURL t /\
                     r = DuckDuckGo.topic_entry t)).
  { intros r Hin. rewrite Hbody in Hin. apply in_take in Hin.
    apply merged_provenance in Hin
      as [H|[(res & Hres & ->)|(t & Ht & Hcat & Hurl & ->)]].
    - left. exact H.
    - right. left. exists res. auto.
    - right. right. exists t. auto. }
  exists data. split; [exact Hb|]. split; [exact Hbody|].
  split; [|split; [exact Hfrom|]].
  - intros t Ht. unfold DuckDuckGo.eligible.
    now destruct (DuckDuckGo.Topics t).
  - intros Hres r Hin.
    destruct (Hfrom r Hin)
      as [(Hu & _ & -> & _)|[(res & Hin' & -> & _)|(t & _ & _ & Hu & -> & _)]];
      auto.
Qed.

Lemma duckduckgo_urls_from_backend_witness :
  exists data,
    Samples.ddg_answers Samples.ddg_answer
      (DuckDuckGo.request_of "rocq" Samples.ddg_options_one) 0%nat
    = Normal data /\
    [mkSearchResult (Some "https://rocq-prover.org/") (Some "Rocq")
                    (Some "Rocq is a proof assistant.")]
    = take (Z.to_nat (DuckDuckGo.limit_of Samples.ddg_options_one))
           (DuckDuckGo.merged data) /\
    (forall t, JS.truthy (DuckDuckGo.FirstURL t) = false ->
               DuckDuckGo.eligible t = false) /\
    (forall r,
       In r [mkSearchResult (Some "https://rocq-prover.org/") (Some "Rocq")
                            (Some "Rocq is a proof assistant.")] ->
       (JS.truthy (DuckDuckGo.AbstractURL data) = true /\
        JS.truthy (DuckDuckGo.AbstractText data) = true /\
        url r = DuckDuckGo.AbstractURL data /\
        description r = DuckDuckGo.AbstractText data)
       \/ (exists res, In res (default [] (DuckDuckGo.Results data)) /\
                       url r = DuckDuckGo.result_FirstURL res /\
                       r = DuckDuckGo.result_entry res)
       \/ (exists t, In t (default [] (DuckDuckGo.RelatedTopics data)) /\
                     DuckDuckGo.Topics t = None /\
                     JS.truthy (DuckDuckGo.FirstURL t) = true /\
                     url r = DuckDuckGo.FirstURL t /\
                     r = DuckDuckGo.topic_entry t)) /\
    ((forall res, In res (default [] (DuckDuckGo.Results data)) ->
                  JS.truthy (DuckDuckGo.result_FirstURL res) = true) ->
     forall r,
       In r [mkSearchResult (Some "https://rocq-prover.org/") (Some "Rocq")
                            (Some "Rocq is a proof assistant.")] ->
       JS.truthy (url r) = true).
Proof.
  apply (duckduckgo_urls_from_backend
           (Samples.ddg_answers Samples.ddg_answer) "rocq"
           Samples.ddg_options_one 4%nat
           (mkRun (Normal [mkSearchResult (Some "https://rocq-prover.org/")
                                          (Some "Rocq")
                                          (Some "Rocq is a proof assistant.")])
                  [request_sent]));
    [lia | reflexivity | reflexivity].
Defined.

(** C10, as stated, fails: a result without a [FirstURL] is returned
    all the same, as an entry that carries no URL. *)
Lemma result_without_url_counterexample :
  DuckDuckGo.duckduckgoSearch
    (Samples.ddg_answers Samples.ddg_result_without_url) 4 "rocq"
    Samples.ddg_options
  = Some (mkRun (Normal [mkSearchResult None (Some "Untitled") (Some "Untitled")])
                [request_sent]) /\
  url (mkSearchResult None (Some "Untitled") (Some "Untitled")) = None.
Proof. split; reflexivity. Qed.

(** ** The front end over the adapters *)

(** A Brave backend that finds nothing makes [search] return the empty
    list, without any error logged. *)
Example brave_finding_nothing_is_no_failure :
  Search.search
    (Samples.through_adapters (Search.env Samples.with_brave)
                              Samples.brave_finds_nothing
                              (Samples.ddg_answers Samples.ddg_answer))
    Samples.with_brave Samples.with_brave Samples.plain_query Search.initial
  = (Normal [],
     Search.mkState "brave" 0 0 [Search.info_using_provider "brave"]
                    [Search.call_for Search.brave Samples.plain_query]).
Proof. reflexivity. Qed.

(** A rate-limited Brave backend is retried by the adapter; the front
    end sees the results only. *)
Example brave_retries_are_invisible_to_search :
  fst (Search.search
         (Samples.through_adapters (Search.env Samples.with_brave)
                                   Samples.brave_limited_thrice
                                   (Samples.ddg_answers Samples.ddg_answer))
         Samples.with_brave Samples.with_brave Samples.plain_query
         Search.initial)
  = Normal [Samples.hit].
Proof. reflexivity. Qed.

(** * Further properties *)

(** ** The resolver and the failure counters *)

Section FrontEnd.

Import Search.

Implicit Types (amb : Ambient) (st : State) (p : Params).

(** X1: the provider [selectSearchProvider] returns is the first
    configured alternative in the resolver's order, and the primary
    when there is none: the failure count, the time of the last failure
    and the clock have no part in the choice. *)
Theorem select_ignores_failure_tracker :
  (forall amb st,
      fst (selectSearchProvider amb st)
      = Normal (default google (first_available amb resolver_order))) /\
  (forall amb1 amb2 st1 st2,
      (forall alt, available amb1 alt = available amb2 alt) ->
      fst (selectSearchProvider amb1 st1) = fst (selectSearchProvider amb2 st2)).
Proof.
  assert (Hclosed : forall amb st,
             fst (selectSearchProvider amb st)
             = Normal (default google (first_available amb resolver_order))).
  { intros amb st. rewrite selectSearchProvider_run. cbv zeta.
    destruct (first_available amb resolver_order); [reflexivity|].
    now destruct (MAX_GOOGLE_FAILURES <=? _). }
  split; [exact Hclosed|].
  intros amb1 amb2 st1 st2 Hav. rewrite !Hclosed.
  unfold first_available, resolver_order. simpl. now rewrite !Hav.
Qed.

(** The failure count [selectSearchProvider] leaves behind. *)
Lemma select_count amb st provider st0 :
  selectSearchProvider amb st = (Normal provider, st0) ->
  googleFailCount st0 = googleFailCount st \/ googleFailCount st0 = 0.
Proof.
  rewrite selectSearchProvider_run. cbv zeta.
  assert (Hc : googleFailCount (after_cooldown amb st) = googleFailCount st \/
               googleFailCount (after_cooldown amb st) = 0).
  { unfold after_cooldown. destruct (cooled amb st); simpl; auto. }
  destruct (first_available amb resolver_order).
  - intros [= _ <-]. exact Hc.
  - destruct (MAX_GOOGLE_FAILURES <=? _); intros [= _ <-]; simpl; auto.
Qed.

(** When it returns the primary, the count it leaves is below the
    threshold. *)
Lemma select_google_count amb st st0 :
  selectSearchProvider amb st = (Normal google, st0) ->
  googleFailCount st0 < MAX_GOOGLE_FAILURES.
Proof.
  intros Hsel.
  pose proof (select_google_no_alternative amb st st0 Hsel) as Hnone.
  revert Hsel. rewrite selectSearchProvider_run. cbv zeta.
  destruct (first_available amb resolver_order) as [alt|] eqn:Hfa.
  - apply first_available_some in Hfa as [_ Hav].
    rewrite Hnone in Hav. discriminate.
  - destruct (MAX_GOOGLE_FAILURES <=? _) eqn:Hle; intros [= <-]; simpl.
    + reflexivity.
    + now apply Z.leb_gt in Hle.
Qed.

(** The failure count [search] leaves behind, from the state the
    resolver left. *)
Lemma search_count respond at_select at_failure p st provider st0 :
  selectSearchProvider at_select st = (Normal provider, st0) ->
  let st' := snd (search respond at_select at_failure p st) in
  googleFailCount st' = googleFailCount st0 \/
  (provider = google /\ googleFailCount st' = googleFailCount st0 + 1).
Proof.
  intros Hsel. cbv zeta. rewrite search_run.
  destruct (decide (provider = google)) as [->|Hne].
  - rewrite (search_body_google respond at_select at_failure p st st0 Hsel).
    cbv zeta.
    destruct (respond (call_for google p)) as [found|error]; [now left|].
    destruct (rate_limited_message error); [|now left].
    destruct (first_available at_failure fallback_order) as [alt|].
    + destruct (respond (call_for alt p)); right; auto.
    + right; auto.
  - rewrite (search_body_alternative respond at_select at_failure p st
                                     provider st0 Hsel Hne).
    destruct (respond (call_for provider p)); now left.
Qed.

Lemma serve_keeps_count_bounded st (r : Sessions.Request) :
  0 <= googleFailCount st <= MAX_GOOGLE_FAILURES ->
  0 <= googleFailCount (Sessions.serve st r) <= MAX_GOOGLE_FAILURES.
Proof.
  intros Hb. unfold Sessions.serve.
  destruct (selectSearchProvider_frame (Sessions.at_select r) st)
    as (provider & st0 & Hsel & _).
  pose proof (select_count _ _ _ _ Hsel) as Hc0.
  destruct (search_count (Sessions.respond r) (Sessions.at_select r)
                         (Sessions.at_failure r) (Sessions.params r)
                         st provider st0 Hsel) as [Hc|[-> Hc]];
    cbv zeta in Hc; rewrite Hc.
  - unfold MAX_GOOGLE_FAILURES in *. lia.
  - pose proof (select_google_count _ _ _ Hsel).
    unfold MAX_GOOGLE_FAILURES in *. lia.
Qed.

(** X2: as long as the calls of [search] are made one after the other,
    each settled before the next is made, the failure count stays
    between 0 and [MAX_GOOGLE_FAILURES], whatever the adapters answer
    and however the settings and the clock change from call to call.
    (Calls that overlap are outside this statement.) *)
Theorem failure_count_stays_bounded (rs : list Sessions.Request) :
  0 <= googleFailCount (Sessions.serve_all rs initial) <= MAX_GOOGLE_FAILURES.
Proof.
  unfold Sessions.serve_all.
  assert (H : 0 <= googleFailCount initial <= MAX_GOOGLE_FAILURES)
    by (unfold MAX_GOOGLE_FAILURES; simpl; lia).
  revert H. generalize initial as st.
  induction rs as [|r rs IH]; intros st Hb; simpl; [exact Hb|].
  apply IH, serve_keeps_count_bounded, Hb.
Qed.

(** X3: when an alternative is configured as the provider is selected,
    [search] invokes the adapter of the first one in the resolver's
    order and nothing else: the primary is not contacted, the result is
    what that adapter returns (the empty list if it throws), and the
    failure counters are those the cooldown check left. *)
Theorem search_with_alternative_single_call
        respond at_select at_failure p st alt :
  first_available at_select resolver_order = Some alt ->
  exists st',
    search respond at_select at_failure p st
    = (Normal (results_or_empty (respond (call_for alt p))), st') /\
    alt <> google /\
    invoked st' = invoked st ++ [call_for alt p] /\
    lastProvider st' = provider_name alt /\
    googleFailCount st' = googleFailCount (after_cooldown at_select st) /\
    lastGoogleFailure st' = lastGoogleFailure st.
Proof.
  intros Hfa.
  assert (Hne : alt <> google).
  { apply first_available_some in Hfa as [_ Hav]. intros ->. discriminate. }
  assert (Hsel : selectSearchProvider at_select st
                 = (Normal alt, after_cooldown at_select st)).
  { rewrite selectSearchProvider_run. cbv zeta. now rewrite Hfa. }
  assert (Hl : lastGoogleFailure (after_cooldown at_select st)
               = lastGoogleFailure st /\
               invoked (after_cooldown at_select st) = invoked st).
  { unfold after_cooldown. destruct (cooled at_select st); auto. }
  destruct Hl as [Hl Hi].
  rewrite search_run,
    (search_body_alternative respond at_select at_failure p st alt _ Hsel Hne).
  destruct (respond (call_for alt p)) as [found|error];
    (eexists; split; [reflexivity|]); simpl; rewrite Hi; auto.
Qed.

Lemma search_with_alternative_single_call_witness :
  exists st',
    search Samples.google_limited_brave_down Samples.with_serper_and_brave
           Samples.bare Samples.plain_query Samples.seven_failures
    = (Normal (results_or_empty
                 (Samples.google_limited_brave_down
                    (call_for serper Samples.plain_query))), st') /\
    serper <> google /\
    invoked st' = invoked Samples.seven_failures
                  ++ [call_for serper Samples.plain_query] /\
    lastProvider st' = provider_name serper /\
    googleFailCount st'
    = googleFailCount (after_cooldown Samples.with_serper_and_brave
                                      Samples.seven_failures) /\
    lastGoogleFailure st' = lastGoogleFailure Samples.seven_failures.
Proof.
  apply search_with_alternative_single_call. reflexivity.
Defined.

(** X4: a successful search on the primary does not reset the failure
    count: the count and the time of the last failure stay as the
    resolver left them, so failures separated by successes add up. *)
Theorem primary_success_keeps_failure_count
        respond at_select at_failure p st st0 found :
  selectSearchProvider at_select st = (Normal google, st0) ->
  respond (call_for google p) = Normal found ->
  exists st',
    search respond at_select at_failure p st = (Normal found, st') /\
    googleFailCount st' = googleFailCount st0 /\
    lastGoogleFailure st' = lastGoogleFailure st /\
    (cooled at_select st = false ->
     googleFailCount st < MAX_GOOGLE_FAILURES ->
     googleFailCount st' = googleFailCount st).
Proof.
  intros Hsel Hfound.
  destruct (selectSearchProvider_frame at_select st)
    as (provider' & st0' & Hsel' & _ & Hlast & _).
  rewrite Hsel in Hsel'. injection Hsel' as <- <-.
  rewrite search_run,
    (search_body_google respond at_select at_failure p st st0 Hsel).
  cbv zeta. rewrite Hfound.
  eexists. split; [reflexivity|]. simpl.
  split; [reflexivity|]. split; [exact Hlast|].
  intros Hcool Hlt. revert Hsel.
  rewrite selectSearchProvider_run. cbv zeta.
  unfold after_cooldown. rewrite Hcool.
  destruct (first_available at_select resolver_order).
  - now intros [= _ <-].
  - apply Z.leb_gt in Hlt. rewrite Hlt. now intros [= <-].
Qed.

Lemma primary_success_keeps_failure_count_witness :
  exists st',
    search MoreSamples.google_finds Samples.bare Samples.bare
           Samples.plain_query MoreSamples.three_failures
    = (Normal [Samples.hit], st') /\
    googleFailCount st' = googleFailCount MoreSamples.three_failures /\
    lastGoogleFailure st' = lastGoogleFailure MoreSamples.three_failures /\
    (cooled Samples.bare MoreSamples.three_failures = false ->
     googleFailCount MoreSamples.three_failures < MAX_GOOGLE_FAILURES ->
     googleFailCount st' = googleFailCount MoreSamples.three_failures).
Proof.
  apply (primary_success_keeps_failure_count
           MoreSamples.google_finds Samples.bare Samples.bare
           Samples.plain_query MoreSamples.three_failures
           MoreSamples.three_failures [Samples.hit]);
    reflexivity.
Defined.

End FrontEnd.

(** ** What [search] invokes and logs *)

Section Invocations.

Import Search.

Variable respond : Call -> Completion (list SearchResult).
Variables at_select at_failure : Ambient.

Implicit Types (st : State) (p : Params).

(** X5: one call of [search] invokes the adapter of the resolved
    provider first and one more adapter at most; a second adapter is
    invoked only after the primary, and it is an alternative that is
    configured when the primary's failure is handled. *)
Theorem search_invokes_at_most_two p st :
  exists provider found st' rest,
    fst (selectSearchProvider at_select st) = Normal provider /\
    search respond at_select at_failure p st = (Normal found, st') /\
    invoked st' = invoked st ++ call_for provider p :: rest /\
    (rest = [] \/
     provider = google /\
     exists alt, rest = [call_for alt p] /\ alt <> google /\
                 available at_failure alt = true).
Proof.
  destruct (selectSearchProvider_frame at_select st)
    as (provider & st0 & Hsel & _ & _ & Hinv).
  exists provider. rewrite Hsel, search_run.
  destruct (decide (provider = google)) as [->|Hne].
  - rewrite (search_body_google respond at_select at_failure p st st0 Hsel).
    cbv zeta.
    destruct (respond (call_for google p)) as [found|error].
    { eexists _, _, []. repeat split; simpl; rewrite ?Hinv; auto. }
    destruct (rate_limited_message error).
    2:{ eexists _, _, []. repeat split; simpl; rewrite ?Hinv; auto. }
    destruct (first_available at_failure fallback_order) as [alt|] eqn:Hfa.
    2:{ eexists _, _, []. repeat split; simpl; rewrite ?Hinv; auto. }
    apply first_available_some in Hfa as [_ Hav].
    assert (Hne : alt <> google) by (intros ->; discriminate).
    destruct (respond (call_for alt p)) as [found|error'];
      eexists _, _, [call_for alt p];
      (split; [reflexivity|]); (split; [reflexivity|]);
      (split; [simpl; rewrite Hinv, <- app_assoc; reflexivity|]);
      right; split; eauto.
  - rewrite (search_body_alternative respond at_select at_failure p st
                                     provider st0 Hsel Hne).
    destruct (respond (call_for provider p));
      eexists _, _, []; repeat split; simpl; rewrite ?Hinv; auto.
Qed.

(** X7: when an alternative is configured as the provider is selected,
    [advanced], [proxy] and [sleep_interval] have no effect: they are
    handed to the primary's adapter only. *)
Theorem search_ignores_primary_only_options p st advanced proxy sleep_interval :
  first_available at_select resolver_order <> None ->
  search respond at_select at_failure
         (Sessions.with_primary_options p advanced proxy sleep_interval) st
  = search respond at_select at_failure p st.
Proof.
  intros Hfa.
  destruct (first_available at_select resolver_order) as [alt|] eqn:Halt;
    [clear Hfa|congruence].
  assert (Hne : alt <> google).
  { apply first_available_some in Halt as [_ Hav]. intros ->. discriminate. }
  assert (Hsel : selectSearchProvider at_select st
                 = (Normal alt, after_cooldown at_select st)).
  { rewrite selectSearchProvider_run. cbv zeta. now rewrite Halt. }
  rewrite !search_run.
  rewrite !(search_body_alternative respond at_select at_failure _ st alt _
                                    Hsel Hne).
  now destruct alt.
Qed.

(** X8: if the settings are the same when the primary's failure is
    handled as when the provider was selected, no alternative is tried:
    a failing primary, rate limited or not, makes [search] return the
    empty list after that single invocation. *)
Theorem no_fallback_with_unchanged_settings p st st0 error :
  env at_failure = env at_select ->
  selectSearchProvider at_select st = (Normal google, st0) ->
  respond (call_for google p) = Thrown error ->
  exists st',
    search respond at_select at_failure p st = (Normal [], st') /\
    invoked st' = invoked st ++ [call_for google p] /\
    last (logged st') = Some (error_in_search "google" error).
Proof.
  intros Henv Hsel Hg.
  pose proof (fallback_needs_changed_settings at_select at_failure st st0
                                              Hsel Henv) as Hfa.
  destruct (selectSearchProvider_frame at_select st)
    as (provider' & st0' & Hsel' & _ & _ & Hinv).
  rewrite Hsel in Hsel'. injection Hsel' as <- <-.
  rewrite search_run,
    (search_body_google respond at_select at_failure p st st0 Hsel).
  cbv zeta. rewrite Hg, Hfa.
  destruct (rate_limited_message error);
    (eexists; split; [reflexivity|]); simpl;
    rewrite Hinv, last_snoc; auto.
Qed.

End Invocations.

Lemma search_ignores_primary_only_options_witness :
  Search.search Samples.google_limited Samples.with_brave Samples.with_brave
    (Sessions.with_primary_options Samples.plain_query (Some true)
                                   (Some "http://tinyproxy:8888") (Some 10))
    Search.initial
  = Search.search Samples.google_limited Samples.with_brave Samples.with_brave
                  Samples.plain_query Search.initial.
Proof.
  apply search_ignores_primary_only_options. discriminate.
Defined.

Lemma no_fallback_with_unchanged_settings_witness :
  exists st',
    Search.search Samples.google_limited Samples.bare Samples.bare
                  Samples.plain_query Search.initial
    = (Normal [], st') /\
    Search.invoked st'
    = Search.invoked Search.initial
      ++ [Search.call_for Search.google Samples.plain_query] /\
    last (Search.logged st')
    = Some (Search.error_in_search "google" (new_Error "Too many requests")).
Proof.
  apply (no_fallback_with_unchanged_settings
           Samples.google_limited Samples.bare Samples.bare
           Samples.plain_query Search.initial Search.initial
           (new_Error "Too many requests"));
    reflexivity.
Defined.

(** ** The adapters: key, bounds and errors *)

Section AdapterRuns.

Lemma brave_try_body_entries data :
  Brave.try_body (Normal data) = Normal (map brave_entry (brave_items data)).
Proof.
  unfold Brave.try_body, Brave.web_results, brave_items.
  destruct (Brave.web data) as [w|]; [|reflexivity].
  destruct (Brave.results w) as [[|i l]|]; reflexivity.
Qed.

Lemma braveSearch_without_key
      (backend : Brave.Request -> nat -> Completion Brave.Data)
      fuel (env : gmap string string) query options :
  JS.truthy (env !! "BRAVE_SEARCH_API_KEY") = false ->
  Brave.braveSearch backend fuel env query options
  = Some (mkRun (Thrown (new_Error "Brave Search API key not configured")) []).
Proof.
  intros H. unfold Brave.braveSearch.
  destruct (env !! "BRAVE_SEARCH_API_KEY") as [[|c k]|];
    [reflexivity | discriminate | reflexivity].
Qed.

(** [braveSearch] with its key set, whatever the backend does. *)
Lemma braveSearch_with_key
      (backend : Brave.Request -> nat -> Completion Brave.Data)
      fuel (env : gmap string string) query options :
  (4 <= fuel)%nat ->
  JS.truthy (env !! "BRAVE_SEARCH_API_KEY") = true ->
  exists key n,
    env !! "BRAVE_SEARCH_API_KEY" = Some key /\ (n <= 3)%nat /\
    Brave.braveSearch backend fuel env query options
    = Some (mkRun (wrap_error "Brave Search API error: "
                     (Brave.try_body
                        (backend (Brave.request_of key query options) n)))
                  (take (2 * n + 1) schedule)).
Proof.
  intros Hfuel Hkey.
  destruct (env !! "BRAVE_SEARCH_API_KEY") as [[|c k]|] eqn:Hlook;
    try discriminate.
  destruct (leading_rate_limits
              (fun i => rate_limited_answer
                          (backend (Brave.request_of (String c k) query options) i)))
    as (n & Hn & Hretry & Hlast).
  exists (String c k), n. split; [reflexivity|]. split; [exact Hn|].
  apply braveSearch_retries; auto; discriminate.
Qed.

(** X9: [braveSearch] contacts the backend exactly when the key is set
    to a non-empty string.  Without it, it throws its "not configured"
    error at once, having sent nothing; with it, at least one request
    is sent. *)
Theorem brave_key_guards_the_backend :
  (forall (backend : Brave.Request -> nat -> Completion Brave.Data)
          fuel (env : gmap string string) query options,
      JS.truthy (env !! "BRAVE_SEARCH_API_KEY") = false ->
      Brave.braveSearch backend fuel env query options
      = Some (mkRun (Thrown (new_Error "Brave Search API key not configured"))
                    [])) /\
  (forall (backend : Brave.Request -> nat -> Completion Brave.Data)
          fuel (env : gmap string string) query options,
      (4 <= fuel)%nat ->
      JS.truthy (env !! "BRAVE_SEARCH_API_KEY") = true ->
      exists run,
        Brave.braveSearch backend fuel env query options = Some run /\
        (1 <= requests run)%nat /\
        head (events run) = Some request_sent).
Proof.
  split; [exact braveSearch_without_key|].
  intros backend fuel env query options Hfuel Hkey.
  destruct (braveSearch_with_key backend fuel env query options Hfuel Hkey)
    as (key & n & _ & Hn & Hrun).
  eexists. split; [exact Hrun|].
  rewrite requests_schedule by exact Hn. split; [lia|].
  cbn [events]. now replace (2 * n + 1)%nat with (S (2 * n)) by lia.
Qed.

Lemma brave_key_guards_the_backend_witness :
  Brave.braveSearch Samples.brave_limited_thrice 0
                    {[ "BRAVE_SEARCH_API_KEY" := "" ]} "rocq"
                    Samples.brave_options
  = Some (mkRun (Thrown (new_Error "Brave Search API key not configured")) [])
  /\
  exists run,
    Brave.braveSearch Samples.brave_limited_thrice 4
                      (Search.env Samples.with_brave) "rocq"
                      Samples.brave_options = Some run /\
    (1 <= requests run)%nat /\
    head (events run) = Some request_sent.
Proof.
  split.
  - apply (proj1 brave_key_guards_the_backend). reflexivity.
  - apply (proj2 brave_key_guards_the_backend); [lia | reflexivity].
Defined.

(** X10: what [braveSearch] returns is made of the items of the last
    answer it received, all of them and in their order: [num_results]
    goes into the request and does not cut the list.  An answer without
    items gives the empty list, not an error. *)
Theorem brave_returns_every_item
        (backend : Brave.Request -> nat -> Completion Brave.Data)
        (env : gmap string string) query options fuel run out :
  (4 <= fuel)%nat ->
  Brave.braveSearch backend fuel env query options = Some run ->
  outcome run = Normal out ->
  exists key data,
    env !! "BRAVE_SEARCH_API_KEY" = Some key /\
    backend (Brave.request_of key query options) (Nat.pred (requests run))
    = Normal data /\
    Brave.count (Brave.request_of key query options)
    = default 10 (Brave.num_results options) /\
    out = map brave_entry (brave_items data) /\
    length out = length (brave_items data).
Proof.
  intros Hfuel Hrun Hout.
  destruct (JS.truthy (env !! "BRAVE_SEARCH_API_KEY")) eqn:Hkey.
  2:{ rewrite (braveSearch_without_key backend fuel env query options Hkey)
        in Hrun.
      injection Hrun as <-. discriminate. }
  destruct (braveSearch_with_key backend fuel env query options Hfuel Hkey)
    as (key & n & Hlook & Hn & Heq).
  rewrite Heq in Hrun. injection Hrun as <-.
  change (n + (n + 0))%nat with (2 * n)%nat in *.
  rewrite requests_schedule by exact Hn.
  cbn [outcome Nat.pred] in *.
  destruct (backend (Brave.request_of key query options) n) as [data|e] eqn:Hb;
    [|discriminate].
  rewrite brave_try_body_entries in Hout. injection Hout as <-.
  exists key, data. repeat split; auto. now rewrite length_map.
Qed.

Lemma brave_returns_every_item_witness :
  exists key data,
    Search.env Samples.with_brave !! "BRAVE_SEARCH_API_KEY" = Some key /\
    MoreSamples.brave_finds_three
      (Brave.request_of key "rocq" MoreSamples.brave_one) 0%nat
    = Normal data /\
    Brave.count (Brave.request_of key "rocq" MoreSamples.brave_one)
    = default 10 (Brave.num_results MoreSamples.brave_one) /\
    [mkSearchResult (Some "https://a.example/") (Some "A") (Some "a");
     mkSearchResult (Some "https://b.example/") (Some "B") None;
     mkSearchResult (Some "https://c.example/") None None]
    = map brave_entry (brave_items data) /\
    length [mkSearchResult (Some "https://a.example/") (Some "A") (Some "a");
            mkSearchResult (Some "https://b.example/") (Some "B") None;
            mkSearchResult (Some "https://c.example/") None None]
    = length (brave_items data).
Proof.
  apply (brave_returns_every_item
           MoreSamples.brave_finds_three (Search.env Samples.with_brave)
           "rocq" MoreSamples.brave_one 4%nat
           (mkRun (Normal [mkSearchResult (Some "https://a.example/")
                                          (Some "A") (Some "a");
                           mkSearchResult (Some "https://b.example/")
                                          (Some "B") None;
                           mkSearchResult (Some "https://c.example/")
                                          None None])
                  [request_sent]));
    [lia | reflexivity | reflexivity].
Defined.

Lemma schedule_bounds o n :
  (n <= 3)%nat ->
  let run := mkRun o (take (2 * n + 1) schedule) in
  (requests run <= 4)%nat /\ 0 <= total_wait run <= 7000.
Proof.
  intros H. destruct n as [|[|[|[|n]]]]; try lia;
    (split; [vm_compute; lia | vm_compute; split; discriminate]).
Qed.

(** X11: whatever the backend answers, both adapters return or throw
    after four requests at most and, in all, seven seconds of waiting
    at most; what they did is an initial part of request, wait 1000,
    request, wait 2000, request, wait 4000, request. *)
Theorem adapters_give_up_in_bounded_time :
  (forall (backend : Brave.Request -> nat -> Completion Brave.Data)
          (env : gmap string string) query options fuel,
      (4 <= fuel)%nat ->
      exists run,
        Brave.braveSearch backend fuel env query options = Some run /\
        (requests run <= 4)%nat /\
        0 <= total_wait run <= 7000 /\
        exists k, events run = take k schedule) /\
  (forall (backend : DuckDuckGo.Request -> nat -> Completion DuckDuckGo.Data)
          query options fuel,
      (4 <= fuel)%nat ->
      exists run,
        DuckDuckGo.duckduckgoSearch backend fuel query options = Some run /\
        (requests run <= 4)%nat /\
        0 <= total_wait run <= 7000 /\
        exists k, events run = take k schedule).
Proof.
  split.
  - intros backend env query options fuel Hfuel.
    destruct (JS.truthy (env !! "BRAVE_SEARCH_API_KEY")) eqn:Hkey.
    + destruct (braveSearch_with_key backend fuel env query options Hfuel Hkey)
        as (key & n & _ & Hn & Hrun).
      eexists. split; [exact Hrun|].
      destruct (schedule_bounds
                  (wrap_error "Brave Search API error: "
                     (Brave.try_body
                        (backend (Brave.request_of key query options) n)))
                  n Hn) as [Hr Hw].
      split; [exact Hr|]. split; [exact Hw|]. eexists. reflexivity.
    + eexists. split; [now apply braveSearch_without_key|].
      split; [vm_compute; lia|]. split; [vm_compute; split; discriminate|].
      exists 0%nat. reflexivity.
  - intros backend query options fuel Hfuel.
    destruct (duckduckgoSearch_total backend query options fuel Hfuel)
      as (n & Hn & Hrun).
    eexists. split; [exact Hrun|].
    destruct (schedule_bounds
                (wrap_error "DuckDuckGo search error: "
                   (DuckDuckGo.try_body (DuckDuckGo.limit_of options)
                      (backend (DuckDuckGo.request_of query options) n)))
                n Hn) as [Hr Hw].
    split; [exact Hr|]. split; [exact Hw|]. eexists. reflexivity.
Qed.

Lemma wrapped_error_has_no_status prefix c e :
  wrap_error prefix c = Thrown e ->
  response_status e = None /\
  exists m, message e = Some (prefix +:+ m).
Proof.
  destruct c as [found|e0]; simpl; [discriminate|].
  intros [= <-]. simpl. eauto.
Qed.

(** X12: an error thrown by an adapter never carries the HTTP status of
    the backend's answer: it is a new error whose message is the
    adapter's prefix followed by the original message (or, for
    [braveSearch], the "not configured" message), so its status reads as
    neither 429 nor 503. *)
Theorem adapter_errors_carry_no_status :
  (forall (backend : Brave.Request -> nat -> Completion Brave.Data)
          (env : gmap string string) query options fuel run e,
      (4 <= fuel)%nat ->
      Brave.braveSearch backend fuel env query options = Some run ->
      outcome run = Thrown e ->
      response_status e = None /\ rate_limited_status e = false /\
      (message e = Some "Brave Search API key not configured" \/
       exists m, message e = Some ("Brave Search API error: " +:+ m))) /\
  (forall (backend : DuckDuckGo.Request -> nat -> Completion DuckDuckGo.Data)
          query options fuel run e,
      (4 <= fuel)%nat ->
      DuckDuckGo.duckduckgoSearch backend fuel query options = Some run ->
      outcome run = Thrown e ->
      response_status e = None /\ rate_limited_status e = false /\
      exists m, message e = Some ("DuckDuckGo search error: " +:+ m)).
Proof.
  assert (Hrl : forall e, response_status e = None ->
                          rate_limited_status e = false).
  { intros e H. unfold rate_limited_status. now rewrite H. }
  split.
  - intros backend env query options fuel run e Hfuel Hrun Hout.
    destruct (JS.truthy (env !! "BRAVE_SEARCH_API_KEY")) eqn:Hkey.
    + destruct (braveSearch_with_key backend fuel env query options Hfuel Hkey)
        as (key & n & _ & _ & Heq).
      rewrite Heq in Hrun. injection Hrun as <-. cbn [outcome] in Hout.
      apply wrapped_error_has_no_status in Hout as [Hs Hm]. auto.
    + rewrite (braveSearch_without_key backend fuel env query options Hkey)
        in Hrun.
      injection Hrun as <-. injection Hout as <-. simpl. auto.
  - intros backend query options fuel run e Hfuel Hrun Hout.
    destruct (duckduckgoSearch_total backend query options fuel Hfuel)
      as (n & _ & Heq).
    rewrite Heq in Hrun. injection Hrun as <-. cbn [outcome] in Hout.
    apply wrapped_error_has_no_status in Hout as [Hs Hm]. auto.
Qed.

Lemma adapter_errors_carry_no_status_witness :
  response_status
    (new_Error "DuckDuckGo search error: Request failed with status code 429")
  = None /\
  rate_limited_status
    (new_Error "DuckDuckGo search error: Request failed with status code 429")
  = false /\
  exists m,
    message
      (new_Error "DuckDuckGo search error: Request failed with status code 429")
    = Some ("DuckDuckGo search error: " +:+ m).
Proof.
  apply (proj2 adapter_errors_carry_no_status
               MoreSamples.ddg_always_limited "rocq" Samples.ddg_options 4%nat
               (mkRun (Thrown (new_Error "DuckDuckGo search error: Request failed with status code 429"))
                      schedule));
    [lia | reflexivity | reflexivity].
Defined.

End AdapterRuns.

(** ** [duckduckgoSearch]: the limit and the topics *)

Section DuckDuckGoEdges.

Import DuckDuckGo.

Implicit Types (data : Data) (t : Topic) (acc : list SearchResult).

(** The abstract and the results of an answer, before any topic. *)
Lemma add_results_run n data :
  add_results n data (add_abstract data [])
  = add_abstract data []
    ++ take (Z.to_nat n - length (add_abstract data []))
            (map result_entry (default [] (Results data))).
Proof.
  unfold add_results. destruct (Results data) as [rs|]; simpl.
  - apply add_results_fold.
  - now rewrite take_nil, app_nil_r.
Qed.




(** When [RelatedTopics.forEach] throws: at an eligible topic without a
    text that is reached while there is room. *)
Lemma add_topics_throws n ts : forall acc e,
  fold_left (push_topic n) ts (Normal acc) = Thrown e <->
  e = TypeError_split /\
  exists pre t post,
    ts = pre ++ t :: post /\ eligible t = true /\ Text t = None /\
    (length acc + length (List.filter eligible pre) < Z.to_nat n)%nat.
Proof.
  induction ts as [|t0 ts IH]; intros acc e; cbn [fold_left].
  - split; [discriminate|]. intros (_ & pre & t & post & H & _).
    destruct pre; discriminate.
  - rewrite push_topic_cases.
    destruct (eligible t0) eqn:He; cbn [andb].
    + destruct (Z.of_nat (length acc) <? n) eqn:Hlt.
      * apply below_limit in Hlt.
        destruct (Text t0) eqn:Ht.
        -- rewrite IH. split; intros (-> & pre & t & post & Hts & Hel & Hno & Hlen);
             (split; [reflexivity|]).
           ++ exists (t0 :: pre), t, post. subst ts. repeat split; auto.
              simpl. rewrite He. rewrite length_app in Hlen. simpl in *. lia.
           ++ destruct pre as [|t1 pre]; simpl in Hts; injection Hts as -> ->.
              { congruence. }
              exists pre, t, post. repeat split; auto.
              simpl in Hlen. rewrite He in Hlen. rewrite length_app.
              simpl in *. lia.
        -- rewrite fold_push_topic_thrown. split.
           ++ intros [= <-]. split; [reflexivity|].
              exists [], t0, ts. repeat split; auto. simpl. lia.
           ++ now intros (-> & _).
      * assert (Hge : ~ (length acc < Z.to_nat n)%nat)
          by (rewrite <- below_limit; congruence).
        rewrite IH. split; intros (-> & pre & t & post & Hts & Hel & Hno & Hlen);
          exfalso; lia.
    + rewrite IH. split; intros (-> & pre & t & post & Hts & Hel & Hno & Hlen);
        (split; [reflexivity|]).
      * exists (t0 :: pre), t, post. subst ts. repeat split; auto.
        simpl. now rewrite He.
      * destruct pre as [|t1 pre]; simpl in Hts; injection Hts as -> ->.
        { congruence. }
        exists pre, t, post. repeat split; auto.
        simpl in Hlen. now rewrite He in Hlen.
Qed.

(** X14: when a related topic that is not a category and has a
    [FirstURL] has no [Text], and it is reached while the list is still
    short of [num_results], the whole request fails: the adapter throws
    an [Error] whose message begins with its prefix and which carries
    no status, the abstract and the results collected so far are lost,
    and no further request is sent. *)
Theorem topic_without_text_fails_the_request
        (backend : Request -> nat -> Completion Data)
        query options fuel n data pre t post :
  (4 <= fuel)%nat -> (n <= 3)%nat ->
  (forall i, (i < n)%nat ->
     rate_limited_answer (backend (request_of query options) i) = true) ->
  backend (request_of query options) n = Normal data ->
  default [] (RelatedTopics data) = pre ++ t :: post ->
  eligible t = true -> Text t = None ->
  (length (add_abstract data [])
   + length (default [] (Results data))
   + length (List.filter eligible pre) < Z.to_nat (limit_of options))%nat ->
  exists e m,
    duckduckgoSearch backend fuel query options
    = Some (mkRun (Thrown e) (take (2 * n + 1) schedule)) /\
    message e = Some ("DuckDuckGo search error: " +:+ m) /\
    response_status e = None.
Proof.
  intros Hfuel Hn Hretry Hanswer Hts Hel Hno Hroom.
  assert (Hthrow : exists e0, try_body (limit_of options) (Normal data)
                              = Thrown e0).
  { unfold try_body, add_topics. rewrite add_results_run.
    destruct (RelatedTopics data) as [ts|]; simpl in Hts;
      [|destruct pre; discriminate].
    assert (Hf : fold_left (push_topic (limit_of options)) ts
                   (Normal (add_abstract data []
                            ++ take (Z.to_nat (limit_of options)
                                     - length (add_abstract data []))
                                    (map result_entry
                                         (default [] (Results data)))))
                 = Thrown TypeError_split).
    { apply add_topics_throws. split; [reflexivity|].
      exists pre, t, post.
      split; [exact Hts|]. split; [exact Hel|]. split; [exact Hno|].
      rewrite length_app, length_take, length_map.
      eapply Nat.le_lt_trans; [|exact Hroom].
      apply Nat.add_le_mono_r, Nat.add_le_mono_l, Nat.le_min_r. }
    rewrite Hf. eauto. }
  destruct Hthrow as [e0 He0].
  rewrite (duckduckgoSearch_retries backend query options fuel n Hfuel Hn Hretry).
  - rewrite Hanswer, He0. cbn [wrap_error]. eexists _, _.
    split; [reflexivity|]. split; reflexivity.
  - intros _. now rewrite Hanswer.
Qed.

Lemma topic_without_text_fails_the_request_witness :
  exists e m,
    duckduckgoSearch (Samples.ddg_answers MoreSamples.ddg_broken_topic) 4
                     "rocq" Samples.ddg_options
    = Some (mkRun (Thrown e) (take (2 * 0 + 1) schedule)) /\
    message e = Some ("DuckDuckGo search error: " +:+ m) /\
    response_status e = None.
Proof.
  apply (topic_without_text_fails_the_request
           (Samples.ddg_answers MoreSamples.ddg_broken_topic) "rocq"
           Samples.ddg_options 4%nat 0%nat MoreSamples.ddg_broken_topic
           [] (mkTopic None (Some "https://duckduckgo.com/A") None) []);
    [lia | lia | intros i Hi; lia | reflexivity | reflexivity | reflexivity
     | reflexivity | vm_compute; lia].
Defined.

Lemma includes_middle (a m b : string) : JS.includes m (a +:+ m +:+ b) = true.
Proof. apply includes_app. eauto. Qed.

Lemma includes_self (s : string) : JS.includes s s = true.
Proof.
  apply includes_app. exists "", "". now rewrite string_app_nil_r.
Qed.

(** X15: the description given to a related topic is a part of its
    text, and it is not empty unless the text is: a text that ends
    with the separator, or has two separators in a row, falls back on
    itself. *)
Theorem topic_description_within_text text :
  exists d,
    topic_description text = Some d /\
    JS.includes d text = true /\
    (text <> "" -> d <> "").
Proof.
  exists (second_piece_or_text text).
  split; [apply topic_description_pieces|].
  unfold second_piece_or_text.
  destruct (JS.cut " - " text) as [[before rest]|] eqn:Hcut.
  2:{ split; [apply includes_self | auto]. }
  apply cut_sound in Hcut.
  destruct (JS.cut " - " rest) as [[piece after]|] eqn:Hrest.
  - apply cut_sound in Hrest.
    destruct piece as [|c piece].
    + split; [apply includes_self | auto].
    + split; [|discriminate].
      rewrite Hcut, Hrest, <- (string_app_assoc before " - ").
      apply includes_middle.
  - destruct rest as [|c rest].
    + split; [apply includes_self | auto].
    + split; [|discriminate].
      apply includes_app. exists (before +:+ " - "), "".
      rewrite string_app_nil_r, string_app_assoc. exact Hcut.
Qed.

End DuckDuckGoEdges.

(** ** The adapters as [search] invokes them *)

(** [search] hands both adapters every option they read, so their
    own defaults never apply on that path: the request of
    [braveSearch] asks for [num_results] items, 5 by default and not
    10, and the request of [duckduckgoSearch] carries the country, "us"
    by default, as its region and not "us-en"; its limit is
    [num_results], 5 by default. *)
Remark adapter_defaults_unused_through_search (p : Search.Params) key :
  exists brave_options ddg_options,
    Search.call_for Search.brave p
    = Search.call_braveSearch (Search.query p) brave_options /\
    Brave.request_of key (Search.query p) brave_options
    = Brave.mkRequest key (Search.query p)
                      (default 5 (Search.num_results p))
                      (default "us" (Search.country p))
                      (default "en" (Search.lang p))
                      (default 5000 (Search.timeout p)) /\
    Search.call_for Search.duckduckgo p
    = Search.call_duckduckgoSearch (Search.query p) ddg_options /\
    DuckDuckGo.request_of (Search.query p) ddg_options
    = DuckDuckGo.mkRequest (Search.query p)
                           (default "us" (Search.country p))
                           (default 5000 (Search.timeout p)) /\
    DuckDuckGo.limit_of ddg_options = default 5 (Search.num_results p).
Proof.
  eexists _, _. repeat split; reflexivity.
Qed.
